(** * The project-status tools of [src/server.py]

    A shallow embedding of the four tool handlers ([get_project],
    [list_projects], [get_total_cost], [search_by_status]) together with the
    module-level table [PROJECTS] they read, and of the registry/dispatcher
    contract the specification places in front of them.

    Conventions.
    - A Python [str] is a Rocq [string] holding its UTF-8 encoding, so the
      literals of the source can be written as they are.
    - A Python [dict] is an association list in insertion order with pairwise
      distinct keys; [json.dumps] and [dict.items()] walk it in that order.
    - A handler is a computation in [M]: it receives the store (the global
      [PROJECTS]) and gives back a result, which is either a value or a raised
      exception, and the store it leaves behind. *)

From Stdlib Require Import String Ascii List ZArith NArith Lia Bool.
From Stdlib Require Import DecimalString.
Import ListNotations.
Local Open Scope list_scope.
Local Open Scope string_scope.

(** ** Python strings *)

Module PyStr.

(** The characters the source writes with an escape. *)
Definition dq : string := String "034"%char "".
Definition nl : string := String "010"%char "".
Definition backslash : string := String "092"%char "".
Definition sq : string := "'".

Definition code (c : ascii) : N := N_of_ascii c.

Definition is_ascii_char (c : ascii) : bool := (code c <? 128)%N.

Fixpoint is_ascii (s : string) : bool :=
  match s with
  | "" => true
  | String c s' => is_ascii_char c && is_ascii s'
  end.

(** [str.lower()] on a code point below 128: A..Z move to a..z. *)
Definition lower_char (c : ascii) : ascii :=
  if ((65 <=? code c) && (code c <=? 90))%N then ascii_of_N (code c + 32) else c.

Fixpoint ascii_lower (s : string) : string :=
  match s with
  | "" => ""
  | String c s' => String (lower_char c) (ascii_lower s')
  end.

(** [sep.join(l)] *)
Definition join (sep : string) (l : list string) : string := String.concat sep l.

(** [needle in s] *)
Definition contains (needle s : string) : Prop :=
  exists before after, s = before ++ needle ++ after.

Fixpoint containsb (needle s : string) : bool :=
  String.prefix needle s ||
  match s with
  | "" => false
  | String _ s' => containsb needle s'
  end.

(** [s.replace(old, new)]: the occurrences of [old] are found from left to
    right and do not overlap. [skip] counts the characters of a found
    occurrence that are still to be dropped. *)
Fixpoint replace_scan (old new s : string) (skip : nat) : string :=
  match s with
  | "" => ""
  | String c s' =>
      match skip with
      | S k => replace_scan old new s' k
      | O =>
          if String.prefix old s
          then new ++ replace_scan old new s' (String.length old - 1)
          else String c (replace_scan old new s' 0)
      end
  end.

Fixpoint intersperse (new s : string) : string :=
  match s with
  | "" => ""
  | String c s' => String c (new ++ intersperse new s')
  end.

Definition replace (old new s : string) : string :=
  match old with
  | "" => new ++ intersperse new s
  | _ => replace_scan old new s 0
  end.

(** [str(n)] for an [int]. *)
Definition string_of_Z (z : Z) : string := NilZero.string_of_int (Z.to_int z).

(** The value of a non-empty run of the digits 0..9. *)
Definition digit_of (c : ascii) : option Z :=
  if ((48 <=? code c) && (code c <=? 57))%N then Some (Z.of_N (code c - 48)) else None.

Fixpoint digits_from (acc : Z) (s : string) : option Z :=
  match s with
  | "" => Some acc
  | String c s' =>
      match digit_of c with
      | Some d => digits_from (10 * acc + d) s'
      | None => None
      end
  end.

Definition digits_value (s : string) : option Z :=
  match s with
  | "" => None
  | _ => digits_from 0 s
  end.

(** Lower-case hexadecimal, [width] digits: [format(n, '0{width}x')] for
    [n < 16 ^ width]. *)
Definition hex_digit (n : N) : ascii :=
  if (n <? 10)%N then ascii_of_N (48 + n) else ascii_of_N (87 + n).

Fixpoint hex (width : nat) (n : N) : string :=
  match width with
  | O => ""
  | S w => hex w (n / 16) ++ String (hex_digit (n mod 16)) ""
  end.

(** The code points of a string, each with the bytes that encode it. *)
Fixpoint utf8_chars_from (s : string) (pending : nat) (cp : N) (bytes : string)
  : list (N * string) :=
  match s with
  | "" => match bytes with "" => [] | _ => [(cp, bytes)] end
  | String b s' =>
      match pending with
      | O =>
          if (code b <? 128)%N then (code b, String b "") :: utf8_chars_from s' 0 0%N ""
          else if (code b <? 224)%N then utf8_chars_from s' 1 (N.land (code b) 31) (String b "")
          else if (code b <? 240)%N then utf8_chars_from s' 2 (N.land (code b) 15) (String b "")
          else utf8_chars_from s' 3 (N.land (code b) 7) (String b "")
      | S k =>
          let cp' := (cp * 64 + N.land (code b) 63)%N in
          let bytes' := bytes ++ String b "" in
          match k with
          | O => (cp', bytes') :: utf8_chars_from s' 0 0%N ""
          | S _ => utf8_chars_from s' k cp' bytes'
          end
      end
  end.

Definition utf8_chars (s : string) : list (N * string) := utf8_chars_from s 0 0%N "".

End PyStr.
Import PyStr.

(** ** What the handlers take from the Python runtime

    [str.lower] and [str.isprintable] depend on the Unicode character
    database; the handlers only need how [lower] acts below code point 128. *)

Class Unicode := {
  lower : string -> string;
  isprintable : N -> bool;
  lower_ascii : forall s, is_ascii s = true -> lower s = ascii_lower s
}.

(** An integer is [exact] when binary64 holds it and its neighbours without
    rounding. *)
Definition exact (z : Z) : Prop := (Z.abs z <= 2 ^ 53)%Z.

(** Binary64 arithmetic as [get_total_cost] uses it: [float(s)], the
    conversion of an [int] operand, [+] and [repr]. [fl z] is the float
    nearest to the integer [z]; the laws describe the operations on exact
    integers, where no rounding occurs. *)
Class Binary64 := {
  float : Type;
  fl : Z -> float;
  float_of_int : Z -> option float;
  float_of_str : string -> option float;
  float_add : float -> float -> float;
  float_repr : float -> string;
  float_of_int_exact : forall z, exact z -> float_of_int z = Some (fl z);
  float_of_str_digits :
    forall s z, digits_value s = Some z -> exact z -> float_of_str s = Some (fl z);
  float_add_exact :
    forall a b, exact a -> exact b -> exact (a + b) ->
                float_add (fl a) (fl b) = fl (a + b);
  float_repr_exact : forall z, exact z -> float_repr (fl z) = string_of_Z z ++ ".0"
}.

(** ** Results, exceptions and the store *)

Inductive exn :=
| KeyError (key : string)
| ValueError (arg : string)
| OverflowError
| TypeError.

Inductive result (A : Type) :=
| Ok (a : A)
| Raise (e : exn).
Arguments Ok {A} a.
Arguments Raise {A} e.

(** A [dict] with [str] keys: its items in insertion order. *)
Definition dict (V : Type) := list (string * V).

(** One project: a [dict] from field names to [str] values. *)
Definition record := dict string.

(** The value bound to the global [PROJECTS]. *)
Definition table := dict record.

Definition M (A : Type) := table -> result A * table.

Definition ret {A} (a : A) : M A := fun st => (Ok a, st).

Definition raise {A} (e : exn) : M A := fun st => (Raise e, st).

Definition bind {A B} (m : M A) (k : A -> M B) : M B :=
  fun st =>
    match m st with
    | (Ok a, st') => k a st'
    | (Raise e, st') => (Raise e, st')
    end.

(** Reading the global name [PROJECTS]. *)
Definition read_PROJECTS : M table := fun st => (Ok st, st).

Definition lift {A} (r : result A) : M A := fun st => (r, st).

Notation "x <- m ;; k" := (bind m (fun x => k))
  (at level 61, m at next level, right associativity).

(** [for x in l: acc = body(x, acc)] *)
Fixpoint for_each {A S} (l : list A) (acc : S) (body : A -> S -> M S) : M S :=
  match l with
  | [] => ret acc
  | x :: l' => acc' <- body x acc ;; for_each l' acc' body
  end.

(** [l.append(x)] *)
Definition append {A} (l : list A) (x : A) : list A := (l ++ [x])%list.

(** ** Dictionaries *)

Fixpoint dict_get {V} (d : dict V) (k : string) : option V :=
  match d with
  | [] => None
  | (k', v) :: d' => if k' =? k then Some v else dict_get d' k
  end.

(** [d[k]] *)
Definition dict_getitem {V} (d : dict V) (k : string) : result V :=
  match dict_get d k with
  | Some v => Ok v
  | None => Raise (KeyError k)
  end.

(** [d[k] = v]: an existing key keeps its place, a new one goes last. *)
Fixpoint dict_set {V} (d : dict V) (k : string) (v : V) : dict V :=
  match d with
  | [] => [(k, v)]
  | (k', v') :: d' => if k' =? k then (k', v) :: d' else (k', v') :: dict_set d' k v
  end.

Definition dict_keys {V} (d : dict V) : list string := map fst d.

Definition dict_items {V} (d : dict V) : list (string * V) := d.

(** Truth value of a dict: [bool(d)]. *)
Definition dict_truthy {V} (d : dict V) : bool :=
  match d with
  | [] => false
  | _ :: _ => true
  end.

(** ** [json.dumps(obj, indent=2)] on dicts of strings *)

Module Json.

(** [json.encoder.py_encode_basestring_ascii], one code point at a time. *)
Definition escape_char (cp : N) (bytes : string) : string :=
  if (cp =? 34)%N then backslash ++ dq
  else if (cp =? 92)%N then backslash ++ backslash
  else if (cp =? 10)%N then backslash ++ "n"
  else if (cp =? 13)%N then backslash ++ "r"
  else if (cp =? 9)%N then backslash ++ "t"
  else if (cp =? 8)%N then backslash ++ "b"
  else if (cp =? 12)%N then backslash ++ "f"
  else if ((32 <=? cp) && (cp <=? 126))%N then bytes
  else if (cp <? 65536)%N then backslash ++ "u" ++ hex 4 cp
  else
    let n := (cp - 65536)%N in
    let s1 := N.lor 55296 (N.land (N.shiftr n 10) 1023) in
    let s2 := N.lor 56320 (N.land n 1023) in
    backslash ++ "u" ++ hex 4 s1 ++ backslash ++ "u" ++ hex 4 s2.

Definition encode_str (s : string) : string :=
  dq ++ String.concat "" (map (fun '(cp, bytes) => escape_char cp bytes) (utf8_chars s)) ++ dq.

Fixpoint spaces (n : nat) : string :=
  match n with
  | O => ""
  | S n' => " " ++ spaces n'
  end.

Definition newline_indent (indent level : nat) : string := nl ++ spaces (indent * level).

(** A dict at nesting depth [level]; [enc] writes a value at the depth it is
    given. The members come out in the order of the items. *)
Definition encode_dict {V} (indent : nat) (enc : nat -> V -> string)
           (level : nat) (d : dict V) : string :=
  match d with
  | [] => "{}"
  | _ :: _ =>
      "{" ++ newline_indent indent (S level)
          ++ join ("," ++ newline_indent indent (S level))
                  (map (fun '(k, v) => encode_str k ++ ": " ++ enc (S level) v) d)
          ++ newline_indent indent level ++ "}"
  end.

Definition dumps_record (indent : nat) (r : record) : string :=
  encode_dict indent (fun _ v => encode_str v) 0 r.

Definition dumps_table (indent : nat) (t : table) : string :=
  encode_dict indent (encode_dict indent (fun _ v => encode_str v)) 0 t.

End Json.

(** ** [repr] of a string and of a list of strings *)

Section Repr.
Context {U : Unicode}.

Definition repr_char (quote : N) (cp : N) (bytes : string) : string :=
  if ((cp =? quote) || (cp =? 92))%N then backslash ++ bytes
  else if (cp =? 9)%N then backslash ++ "t"
  else if (cp =? 10)%N then backslash ++ "n"
  else if (cp =? 13)%N then backslash ++ "r"
  else if ((cp <? 32) || (cp =? 127))%N then backslash ++ "x" ++ hex 2 cp
  else if (cp <? 127)%N then bytes
  else if isprintable cp then bytes
  else if (cp <? 256)%N then backslash ++ "x" ++ hex 2 cp
  else if (cp <? 65536)%N then backslash ++ "u" ++ hex 4 cp
  else backslash ++ "U" ++ hex 8 cp.

(** Single quotes, unless the string has a single quote and no double one. *)
Definition repr_quote (s : string) : N :=
  if containsb sq s && negb (containsb dq s) then 34%N else 39%N.

Definition repr_str (s : string) : string :=
  let q := repr_quote s in
  let qs := String (ascii_of_N q) "" in
  qs ++ String.concat "" (map (fun '(cp, bytes) => repr_char q cp bytes) (utf8_chars s)) ++ qs.

Definition repr_list (l : list string) : string :=
  "[" ++ join ", " (map repr_str l) ++ "]".

End Repr.

(** ** Numbers: [int] and [float] *)

Section Numbers.
Context {F : Binary64}.

Inductive pynum :=
| PyInt (n : Z)
| PyFloat (x : float).

(** [a + b] *)
Definition py_add (a b : pynum) : result pynum :=
  match a, b with
  | PyInt m, PyInt n => Ok (PyInt (m + n))
  | PyInt m, PyFloat y =>
      match float_of_int m with
      | Some x => Ok (PyFloat (float_add x y))
      | None => Raise OverflowError
      end
  | PyFloat x, PyInt n =>
      match float_of_int n with
      | Some y => Ok (PyFloat (float_add x y))
      | None => Raise OverflowError
      end
  | PyFloat x, PyFloat y => Ok (PyFloat (float_add x y))
  end.

(** [float(s)] *)
Definition py_float (s : string) : result pynum :=
  match float_of_str s with
  | Some x => Ok (PyFloat x)
  | None => Raise (ValueError s)
  end.

(** A number inside an f-string: [format(a, '')]. *)
Definition py_format_num (a : pynum) : string :=
  match a with
  | PyInt n => string_of_Z n
  | PyFloat x => float_repr x
  end.

End Numbers.

(** ** The module-level data and the four tools *)

(** [PROJECTS], as the module binds it at import time. *)
Definition PROJECTS : table :=
  [ ("jamiat",   [("name", "Jamiat");   ("website status", "live"); ("dashboard status", "live");
                  ("deployment platform", "Vercel"); ("cost", "$20/mo")]);
    ("sama",     [("name", "SAMA");     ("website status", "live"); ("dashboard status", "development");
                  ("deployment platform", "Vercel"); ("cost", "$20/mo")]);
    ("safe",     [("name", "SAFE");     ("website status", "live"); ("dashboard status", "live");
                  ("deployment platform", "Vercel"); ("cost", "$20/mo")]);
    ("next",     [("name", "NEXT");     ("website status", "live"); ("dashboard status", "development");
                  ("deployment platform", "Vercel"); ("cost", "$20/mo")]);
    ("hamqadam", [("name", "Hamqadam"); ("website status", "live"); ("dashboard status", "live");
                  ("deployment platform", "Vercel + Sanity"); ("cost", "$45/mo")]) ].

Section Tools.
Context {U : Unicode} {F : Binary64}.

(** The f-string returned when [not project] holds. *)
Definition not_found (project_id : string) : M string :=
  PROJECTS <- read_PROJECTS ;;
  ret ("❌ Project '" ++ project_id ++ "' not found. Available: "
         ++ repr_list (dict_keys PROJECTS)).

(** TOOL 1 *)
Definition get_project (project_id : string) : M string :=
  PROJECTS <- read_PROJECTS ;;
  match dict_get PROJECTS (lower project_id) with
  | None => not_found project_id
  | Some project =>
      if dict_truthy project then ret (Json.dumps_record 2 project)
      else not_found project_id
  end.

(** The f-string appended to [summary] for one item. *)
Definition summary_line (pid : string) (info : record) : result string :=
  match dict_getitem info "name" with Raise e => Raise e | Ok name =>
  match dict_getitem info "website status" with Raise e => Raise e | Ok website =>
  match dict_getitem info "dashboard status" with Raise e => Raise e | Ok dashboard =>
  match dict_getitem info "deployment platform" with Raise e => Raise e | Ok platform =>
  match dict_getitem info "cost" with Raise e => Raise e | Ok cost =>
    Ok ("• " ++ name ++ " (" ++ pid ++ ") - " ++ website ++ " - " ++ dashboard
             ++ " - " ++ platform ++ " - " ++ cost)
  end end end end end.

(** TOOL 2 *)
Definition list_projects : M string :=
  PROJECTS <- read_PROJECTS ;;
  summary <- for_each (dict_items PROJECTS) []
               (fun '(pid, info) summary =>
                  line <- lift (summary_line pid info) ;;
                  ret (append summary line)) ;;
  ret (join nl summary).

(** The number read from one cost string such as [$25/mo]. *)
Definition parse_cost (cost_field : string) : result pynum :=
  let cost_str := replace "/mo" "" (replace "$" "" cost_field) in
  if cost_str =? "0" then Ok (PyInt 0) else py_float cost_str.

(** The body of the loop of TOOL 3. *)
Definition total_cost_step (pid : string) (info : record)
           (acc : pynum * list string) : M (pynum * list string) :=
  let '(total, breakdown) := acc in
  cost_field <- lift (dict_getitem info "cost") ;;
  cost <- lift (parse_cost cost_field) ;;
  total <- lift (py_add total cost) ;;
  name <- lift (dict_getitem info "name") ;;
  shown <- lift (dict_getitem info "cost") ;;
  ret (total, append breakdown ("  " ++ name ++ ": " ++ shown)).

(** TOOL 3 *)
Definition get_total_cost : M string :=
  PROJECTS <- read_PROJECTS ;;
  acc <- for_each (dict_items PROJECTS) (PyInt 0, [])
           (fun '(pid, info) acc => total_cost_step pid info acc) ;;
  let '(total, breakdown) := acc in
  let result := "Monthly Hosting Breakdown:" ++ nl in
  let result := result ++ join nl breakdown in
  let result := result ++ nl ++ nl ++ "Total: $" ++ py_format_num total ++ "/mo" in
  ret result.

(** [wanted is None or info[field].lower() == wanted.lower()] *)
Definition status_match (info : record) (field : string) (wanted : option string)
  : result bool :=
  match wanted with
  | None => Ok true
  | Some w =>
      match dict_getitem info field with
      | Ok v => Ok (lower v =? lower w)
      | Raise e => Raise e
      end
  end.

(** An optional argument inside an f-string. *)
Definition format_opt (a : option string) : string :=
  match a with
  | None => "None"
  | Some s => s
  end.

(** The body of the loop of TOOL 4. *)
Definition search_step (website_status dashboard_status : option string)
           (pid : string) (info : record) (matches : table) : M table :=
  website_match <- lift (status_match info "website status" website_status) ;;
  dashboard_match <- lift (status_match info "dashboard status" dashboard_status) ;;
  if website_match && dashboard_match then ret (dict_set matches pid info)
  else ret matches.

(** TOOL 4 *)
Definition search_by_status (website_status dashboard_status : option string) : M string :=
  PROJECTS <- read_PROJECTS ;;
  matches <- for_each (dict_items PROJECTS) []
               (fun '(pid, info) matches =>
                  search_step website_status dashboard_status pid info matches) ;;
  if dict_truthy matches then ret (Json.dumps_table 2 matches)
  else ret ("No projects found with website_status='" ++ format_opt website_status
              ++ "', dashboard_status='" ++ format_opt dashboard_status ++ "'").

(** The resource [tracker://projects/all]. *)
Definition all_projects_resource : M string :=
  PROJECTS <- read_PROJECTS ;;
  ret (Json.dumps_table 2 PROJECTS).

(** A call of one of the tools with its arguments. *)
Inductive call :=
| GetProject (project_id : string)
| ListProjects
| GetTotalCost
| SearchByStatus (website_status dashboard_status : option string).

Definition handle (c : call) : M string :=
  match c with
  | GetProject project_id => get_project project_id
  | ListProjects => list_projects
  | GetTotalCost => get_total_cost
  | SearchByStatus w d => search_by_status w d
  end.

End Tools.

(** The prompt [monthly_report]. *)
Definition monthly_report : M string :=
  PROJECTS <- read_PROJECTS ;;
  let data := Json.dumps_table 2 PROJECTS in
  ret ("You are the IT Department Manager at Jamiat. " ++ nl
         ++ "Generate a professional monthly status report based on this project data:" ++ nl
         ++ data ++ nl
         ++ nl
         ++ "Include: Executive summary, per-project updates, hosting costs, and next month's priorities."
         ++ nl
         ++ "Keep it concise and professional.").

(** ** The registry and the dispatcher

    The source registers the tools with the decorators of the FastMCP
    framework and leaves name resolution and argument binding to it; the
    specification describes that layer as a registry and a dispatcher of its
    own (sections 4.1, 4.2 and 7). *)

Module Dispatch.

(** Modelled from the spec: the fault taxonomy of section 7; the source
    defines no exception class. *)
Inductive fault :=
| UnknownOperationError (name : string)
| DuplicateOperationError (name : string)
| MissingArgumentError (param : string)
| ArgumentTypeError (param : string)
| HandlerExecutionError (cause : exn).

(** Modelled from the spec: what Dispatcher.invoke gives back, the handler's
    string or a raised fault. *)
Inductive outcome :=
| Returned (text : string)
| Failed (f : fault).

(** Modelled from the spec: a value of the argument mapping (section 4.2,
    "mapping from string to value"). *)
Inductive value :=
| VStr (s : string)
| VNum (z : Z)
| VBool (b : bool)
| VNull.

(** Modelled from the spec: the declared type of a parameter. Every
    parameter of the source is annotated [str]. *)
Inductive ptype := PString.

(** Modelled from the spec: one entry of a descriptor's parameter sequence,
    (name, type, required, default). The default [None] is the
    absence-marker. *)
Record parameter := {
  p_name : string;
  p_type : ptype;
  p_required : bool;
  p_default : option string
}.

(** Modelled from the spec: the OperationDescriptor of section 3. The handler
    receives the coerced argument set. *)
Record descriptor := {
  op_name : string;
  op_description : string;
  op_parameters : list parameter;
  op_handler : dict (option string) -> M string
}.

(** Modelled from the spec: the Registry of section 4.1, its descriptors in
    registration order. *)
Definition registry := list descriptor.

(** Modelled from the spec: Registry.lookup of section 4.1. *)
Fixpoint lookup (r : registry) (name : string) : fault + descriptor :=
  match r with
  | [] => inl (UnknownOperationError name)
  | d :: r' => if op_name d =? name then inr d else lookup r' name
  end.

(** Modelled from the spec: Registry.register of section 4.1. *)
Definition register (r : registry) (d : descriptor) : fault + registry :=
  match lookup r (op_name d) with
  | inr _ => inl (DuplicateOperationError (op_name d))
  | inl _ => inr (r ++ [d])%list
  end.

(** Modelled from the spec: Registry.list of section 4.1. *)
Definition list_operations (r : registry) : list descriptor := r.

Section Dispatcher.

(** Modelled from the spec: the coercion of a supplied value to a declared
    type (step 2 of section 4.2). The specification names it and leaves its
    table open, so it is a parameter; [None] is a coercion failure. *)
Variable coerce : ptype -> value -> option string.

(** Modelled from the spec: step 2 of Dispatcher.invoke, over the declared
    parameters in order. *)
Fixpoint bind_arguments (ps : list parameter) (args : dict value)
  : fault + dict (option string) :=
  match ps with
  | [] => inr []
  | p :: ps' =>
      let bound :=
        match dict_get args (p_name p) with
        | Some v =>
            match coerce (p_type p) v with
            | Some s => inr (Some s)
            | None => inl (ArgumentTypeError (p_name p))
            end
        | None =>
            if p_required p then inl (MissingArgumentError (p_name p))
            else inr (p_default p)
        end in
      match bound with
      | inl f => inl f
      | inr a =>
          match bind_arguments ps' args with
          | inl f => inl f
          | inr rest => inr ((p_name p, a) :: rest)
          end
      end
  end.

(** Modelled from the spec: Dispatcher.invoke of section 4.2, steps 1 to 4. *)
Definition invoke (r : registry) (name : string) (args : dict value)
  : table -> outcome * table :=
  fun st =>
    match lookup r name with
    | inl f => (Failed f, st)
    | inr d =>
        match bind_arguments (op_parameters d) args with
        | inl f => (Failed f, st)
        | inr bound =>
            match op_handler d bound st with
            | (Ok text, st') => (Returned text, st')
            | (Raise e, st') => (Failed (HandlerExecutionError e), st')
            end
        end
    end.


End Dispatcher.

Section Operations.
Context {U : Unicode} {F : Binary64}.

(** The coerced argument bound to [name]; the absence-marker is [None]. *)
Definition argument (bound : dict (option string)) (name : string) : option string :=
  match dict_get bound name with
  | Some a => a
  | None => None
  end.

(** The descriptors of the four tools: name, first docstring line and
    parameters as the source declares them.

    [get_project(project_id: str)] *)
Definition op_get_project : descriptor :=
  {| op_name := "get_project";
     op_description := "Get the current status and details of a project by its ID.";
     op_parameters :=
       [ {| p_name := "project_id"; p_type := PString; p_required := true; p_default := None |} ];
     op_handler := fun bound =>
       match argument bound "project_id" with
       | Some project_id => get_project project_id
       | None => raise TypeError
       end |}.

(** [list_projects()] *)
Definition op_list_projects : descriptor :=
  {| op_name := "list_projects";
     op_description :=
       "List all projects in the Jamiat IT Department with their current status.";
     op_parameters := [];
     op_handler := fun _ => list_projects |}.

(** [get_total_cost()] *)
Definition op_get_total_cost : descriptor :=
  {| op_name := "get_total_cost";
     op_description := "Calculate the total monthly hosting cost across all projects.";
     op_parameters := [];
     op_handler := fun _ => get_total_cost |}.

(** [search_by_status(website_status: str = None, dashboard_status: str = None)] *)
Definition op_search_by_status : descriptor :=
  {| op_name := "search_by_status";
     op_description := "Find all projects with a specific website and/or dashboard status.";
     op_parameters :=
       [ {| p_name := "website_status"; p_type := PString; p_required := false; p_default := None |};
         {| p_name := "dashboard_status"; p_type := PString; p_required := false; p_default := None |} ];
     op_handler := fun bound =>
       search_by_status (argument bound "website_status") (argument bound "dashboard_status") |}.

(** The registry after the four [@mcp.tool()] registrations, in source order. *)
Definition tools : registry :=
  [op_get_project; op_list_projects; op_get_total_cost; op_search_by_status].

End Operations.

(** Modelled from the spec: one coercion table, for running examples:
    strings coerce to themselves and nothing else coerces. *)
Definition strict_coerce (t : ptype) (v : value) : option string :=
  match v with
  | VStr s => Some s
  | _ => None
  end.

End Dispatch.

(** ** A runtime to run the handlers on examples

    [lower] acts on code points below 128 only and every other code point
    counts as printable; floats are the integers themselves. Both satisfy the
    laws of the interfaces. *)

Definition ascii_unicode : Unicode :=
  {| lower := ascii_lower;
     isprintable := fun _ => true;
     lower_ascii := fun s _ => eq_refl |}.

Definition integer_floats : Binary64 :=
  {| float := Z;
     fl := fun z => z;
     float_of_int := fun z => Some z;
     float_of_str := digits_value;
     float_add := Z.add;
     float_repr := fun z => string_of_Z z ++ ".0";
     float_of_int_exact := fun z _ => eq_refl;
     float_of_str_digits := fun s z H _ => H;
     float_add_exact := fun a b _ _ _ => eq_refl;
     float_repr_exact := fun z _ => eq_refl |}.

(** ** The vocabulary of the properties *)

(** The five fields every record literal of the source carries, in the order
    the literals list them. *)
Definition field_names : list string :=
  ["name"; "website status"; "dashboard status"; "deployment platform"; "cost"].

(** A record with all five fields. *)
Definition complete (info : record) : bool :=
  forallb (fun f => match dict_get info f with Some _ => true | None => false end)
          field_names.

Section Vocabulary.
Context {U : Unicode}.

(** Equality up to case: both sides through [lower]. *)
Definition eq_ci (a b : string) : Prop := lower a = lower b.

(** [project_id] names a record of [t] up to case. *)
Definition present (t : table) (project_id : string) : Prop :=
  exists pid, In pid (dict_keys t) /\ eq_ci project_id pid.

(** A supplied filter equals the field up to case; an absent one asks nothing. *)
Definition field_agrees (wanted actual : option string) : bool :=
  match wanted, actual with
  | None, _ => true
  | Some w, Some v => lower v =? lower w
  | Some _, None => false
  end.

Definition satisfies (website_status dashboard_status : option string) (info : record) : bool :=
  field_agrees website_status (dict_get info "website status")
  && field_agrees dashboard_status (dict_get info "dashboard status").

(** A supplied filter is met by the named field of the record. *)
Definition filter_holds (wanted : option string) (info : record) (field : string) : Prop :=
  forall w, wanted = Some w -> exists v, dict_get info field = Some v /\ eq_ci v w.

(** The records of [t] that pass both filters, in table order. *)
Definition selected (website_status dashboard_status : option string) (t : table) : table :=
  filter (fun item => satisfies website_status dashboard_status (snd item)) t.

End Vocabulary.

(** A computation that hands the store back as it received it. *)
Definition readonly {A} (m : M A) : Prop := forall st, snd (m st) = st.

(** The magnitude of a cost string: what is left of it once the currency
    symbol and the period suffix are gone, read as a decimal number. *)
Definition magnitude (cost_field : string) : option Z :=
  digits_value (replace "/mo" "" (replace "$" "" cost_field)).

(** The cost string strips to the literal [0], which the source keeps an [int]. *)
Definition literal_zero (cost_field : string) : bool :=
  replace "/mo" "" (replace "$" "" cost_field) =? "0".

(** The breakdown line of one record. *)
Definition breakdown_line (info : record) : option string :=
  match dict_get info "name", dict_get info "cost" with
  | Some name, Some cost => Some ("  " ++ name ++ ": " ++ cost)
  | _, _ => None
  end.

(** The line of the listing for one record: a bullet, then the name with the
    id in parentheses and the four other fields, joined by [" - "]. *)
Definition listing_line (pid : string) (info : record) : option string :=
  match map (dict_get info) field_names with
  | [Some name; Some website; Some dashboard; Some platform; Some cost] =>
      Some ("• " ++ join " - " [name ++ " (" ++ pid ++ ")"; website; dashboard; platform; cost])
  | _ => None
  end.

(** [s.split(sep)] for a one-character separator. *)
Fixpoint split_on (sep : ascii) (s : string) : list string :=
  match s with
  | "" => [""]
  | String c s' =>
      if Ascii.eqb c sep then "" :: split_on sep s'
      else
        match split_on sep s' with
        | piece :: pieces => String c piece :: pieces
        | [] => [String c ""]
        end
  end.

(** [sorted(d.items())]: the items by ascending key, as [sort_keys=True]
    would emit them. *)
Fixpoint insert_by_key {V} (item : string * V) (d : dict V) : dict V :=
  match d with
  | [] => [item]
  | item' :: d' =>
      if String.leb (fst item) (fst item') then item :: item' :: d'
      else item' :: insert_by_key item d'
  end.

Definition sort_keys {V} (d : dict V) : dict V := fold_right insert_by_key [] d.

(** All values of an optional list are there. *)
Fixpoint all_some {A} (l : list (option A)) : option (list A) :=
  match l with
  | [] => Some []
  | None :: _ => None
  | Some a :: l' =>
      match all_some l' with
      | Some r => Some (a :: r)
      | None => None
      end
  end.

Definition sum_Z (l : list Z) : Z := fold_right Z.add 0%Z l.

(** The magnitude of the cost field of a record. *)
Definition record_magnitude (info : record) : option Z :=
  match dict_get info "cost" with
  | Some cost => magnitude cost
  | None => None
  end.

(** The magnitudes of the cost fields of a table, in table order. *)
Definition magnitudes (t : table) : option (list Z) :=
  all_some (map (fun item => record_magnitude (snd item)) t).

(** Some cost string of the table is not the literal zero: the total is a
    [float] then, and an [int] otherwise. *)
Definition total_is_float (t : table) : bool :=
  existsb (fun item => match dict_get (snd item) "cost" with
                       | Some cost => negb (literal_zero cost)
                       | None => false
                       end) t.

(** How a total made of exact integers is shown. *)
Definition shown_total (t : table) (total : Z) : string :=
  if total_is_float t then string_of_Z total ++ ".0" else string_of_Z total.

(** The running total of the loop: [None] while it is still the [int] 0 it
    started as, [Some s] once it is the float of the integer [s]. *)
Definition running_value (o : option Z) : Z :=
  match o with
  | None => 0%Z
  | Some s => s
  end.

Definition running_num {F : Binary64} (o : option Z) : pynum :=
  match o with
  | None => PyInt 0
  | Some s => PyFloat (fl s)
  end.

(** A string between double quotes: how JSON writes a string none of whose
    characters needs an escape. *)
Definition quoted (s : string) : string := dq ++ s ++ dq.

(** The text of a non-empty record inside a table, written out: a brace,
    one member per line at four spaces, the closing brace at two. *)
Definition record_text (info : record) : string :=
  "{" ++ nl ++ "    "
      ++ join ("," ++ nl ++ "    ") (map (fun kv => quoted (fst kv) ++ ": " ++ quoted (snd kv)) info)
      ++ nl ++ "  }".

(** The text of a non-empty table, written out: a brace, one member per
    record at two spaces, each the quoted id, a colon and the text of the
    record, and the closing brace. *)
Definition table_text (t : table) : string :=
  "{" ++ nl ++ "  "
      ++ join ("," ++ nl ++ "  ")
              (map (fun item => quoted (fst item) ++ ": " ++ record_text (snd item)) t)
      ++ nl ++ "}".

(** The first of the five fields that a record lacks, if it lacks one. *)
Definition first_missing (info : record) : option string :=
  find (fun f => match dict_get info f with Some _ => false | None => true end)
       field_names.

(** A string without a newline. *)
Fixpoint no_newline (s : string) : bool :=
  match s with
  | "" => true
  | String c s' => negb (Ascii.eqb c "010"%char) && no_newline s'
  end.

(** Neither an id nor a value of the table holds a newline. *)
Definition one_line_fields (t : table) : bool :=
  forallb (fun item => no_newline (fst item)
                       && forallb (fun kv => no_newline (snd kv)) (snd item)) t.



(** * Properties *)

(** ** The tools never write to the store *)

Create HintDb readonly.

Lemma readonly_ret {A} (a : A) : readonly (ret a).
Proof. intros st. reflexivity. Qed.

Lemma readonly_raise {A} (e : exn) : readonly (@raise A e).
Proof. intros st. reflexivity. Qed.

Lemma readonly_lift {A} (r : result A) : readonly (lift r).
Proof. intros st. reflexivity. Qed.

Lemma readonly_read : readonly read_PROJECTS.
Proof. intros st. reflexivity. Qed.

Lemma bind_returns {A B} (m : M A) (k : A -> M B) (st st' : table) (a : A) :
  m st = (Ok a, st') -> bind m k st = k a st'.
Proof. intros H. unfold bind. now rewrite H. Qed.

Lemma readonly_bind {A B} (m : M A) (k : A -> M B) :
  readonly m -> (forall a, readonly (k a)) -> readonly (bind m k).
Proof.
  intros Hm Hk st. unfold bind.
  specialize (Hm st). destruct (m st) as [[a | e] st']; simpl in Hm; subst st'.
  - apply Hk.
  - reflexivity.
Qed.

Lemma readonly_for_each {A S} (body : A -> S -> M S) (l : list A) :
  (forall x acc, readonly (body x acc)) -> forall acc, readonly (for_each l acc body).
Proof.
  intros Hbody. induction l as [| x l IH]; intros acc; simpl.
  - apply readonly_ret.
  - apply readonly_bind; auto.
Qed.

Lemma readonly_if {A} (b : bool) (m1 m2 : M A) :
  readonly m1 -> readonly m2 -> readonly (if b then m1 else m2).
Proof. destruct b; auto. Qed.

#[export] Hint Resolve readonly_ret readonly_raise readonly_lift readonly_read
  readonly_bind readonly_for_each readonly_if : readonly.

Section ReadOnly.
Context {U : Unicode} {F : Binary64}.

Lemma readonly_not_found project_id : readonly (not_found project_id).
Proof. unfold not_found. auto with readonly. Qed.

Lemma readonly_get_project project_id : readonly (get_project project_id).
Proof.
  unfold get_project. apply readonly_bind; [apply readonly_read |].
  intros t. destruct (dict_get t (lower project_id)) as [project |].
  - apply readonly_if; [apply readonly_ret | apply readonly_not_found].
  - apply readonly_not_found.
Qed.

Lemma readonly_list_projects : readonly list_projects.
Proof.
  unfold list_projects. apply readonly_bind; [apply readonly_read |].
  intros t. apply readonly_bind; [| auto with readonly].
  apply readonly_for_each. intros [pid info] acc. auto with readonly.
Qed.

Lemma readonly_total_cost_step pid info acc : readonly (total_cost_step pid info acc).
Proof.
  unfold total_cost_step. destruct acc as [total breakdown].
  repeat (apply readonly_bind; [apply readonly_lift | intros ?]).
  apply readonly_ret.
Qed.

Lemma readonly_get_total_cost : readonly get_total_cost.
Proof.
  unfold get_total_cost. apply readonly_bind; [apply readonly_read |].
  intros t. apply readonly_bind.
  - apply readonly_for_each. intros [pid info] acc. apply readonly_total_cost_step.
  - intros [total breakdown]. apply readonly_ret.
Qed.

Lemma readonly_search_step w d pid info matches : readonly (search_step w d pid info matches).
Proof.
  unfold search_step.
  repeat (apply readonly_bind; [apply readonly_lift | intros ?]).
  apply readonly_if; apply readonly_ret.
Qed.

Lemma readonly_search_by_status w d : readonly (search_by_status w d).
Proof.
  unfold search_by_status. apply readonly_bind; [apply readonly_read |].
  intros t. apply readonly_bind.
  - apply readonly_for_each. intros [pid info] acc. apply readonly_search_step.
  - intros matches. apply readonly_if; apply readonly_ret.
Qed.

Lemma readonly_handle (c : call) : readonly (handle c).
Proof.
  destruct c; simpl.
  - apply readonly_get_project.
  - apply readonly_list_projects.
  - apply readonly_get_total_cost.
  - apply readonly_search_by_status.
Qed.

(** C9. Every handler is deterministic and keeps no hidden state: whatever
    the store and the arguments, a call leaves the store as it found it, so
    the same call made again right after it returns the very same result;
    the same holds for any number of earlier calls in between. *)
Theorem handlers_are_repeatable (c : call) (st : table) :
  snd (handle c st) = st
  /\ handle c (snd (handle c st)) = handle c st
  /\ forall earlier : list call,
       handle c (fold_left (fun s c' => snd (handle c' s)) earlier st) = handle c st.
Proof.
  split; [apply readonly_handle |].
  split; [now rewrite readonly_handle |].
  intros earlier. f_equal. induction earlier as [| c' earlier IH]; simpl.
  - reflexivity.
  - now rewrite readonly_handle.
Qed.

End ReadOnly.

(** ** Strings and dictionaries *)

Lemma append_assoc (a b c : string) : (a ++ b) ++ c = a ++ b ++ c.
Proof. induction a as [| x a IH]; simpl; [reflexivity | now rewrite IH]. Qed.

Lemma append_empty_r (a : string) : a ++ "" = a.
Proof. induction a as [| x a IH]; simpl; [reflexivity | now rewrite IH]. Qed.

Lemma contains_here (needle after : string) : contains needle (needle ++ after).
Proof. exists "", after. reflexivity. Qed.

Lemma contains_append_r (needle a b : string) :
  contains needle b -> contains needle (a ++ b).
Proof.
  intros (before & after & ->). exists (a ++ before), after.
  now rewrite append_assoc.
Qed.

Lemma contains_append_l (needle a b : string) :
  contains needle a -> contains needle (a ++ b).
Proof.
  intros (before & after & ->). exists before, (after ++ b).
  now rewrite !append_assoc.
Qed.

Lemma contains_join (sep x : string) (l : list string) :
  In x l -> contains x (join sep l).
Proof.
  unfold join. induction l as [| y l IH]; intros Hin; [contradiction |].
  destruct Hin as [-> | Hin].
  - destruct l; simpl; [exists "", ""; now rewrite append_empty_r | apply contains_here].
  - destruct l as [| z l]; [contradiction |].
    change (contains x (y ++ sep ++ String.concat sep (z :: l))).
    do 2 apply contains_append_r. now apply IH.
Qed.

Lemma dict_get_In {V} (d : dict V) (k : string) (v : V) :
  dict_get d k = Some v -> In (k, v) d.
Proof.
  induction d as [| [k' v'] d IH]; simpl; [discriminate |].
  destruct (String.eqb_spec k' k) as [-> | Hne].
  - intros [= ->]. now left.
  - intros H. right. now apply IH.
Qed.

Lemma dict_get_of_key {V} (d : dict V) (k : string) :
  In k (dict_keys d) -> exists v, dict_get d k = Some v.
Proof.
  induction d as [| [k' v'] d IH]; simpl; [contradiction |].
  destruct (String.eqb_spec k' k) as [-> | Hne].
  - intros _. now exists v'.
  - intros [Heq | Hin]; [contradiction | now apply IH].
Qed.

Lemma dict_get_key_In {V} (d : dict V) (k : string) (v : V) :
  dict_get d k = Some v -> In k (dict_keys d).
Proof.
  intros H. apply dict_get_In in H. unfold dict_keys.
  change k with (fst (k, v)). now apply in_map.
Qed.

Lemma dict_set_new {V} (d : dict V) (k : string) (v : V) :
  ~ In k (dict_keys d) -> dict_set d k v = (d ++ [(k, v)])%list.
Proof.
  induction d as [| [k' v'] d IH]; simpl; intros Hnot; [reflexivity |].
  destruct (String.eqb_spec k' k) as [-> | Hne].
  - exfalso. apply Hnot. now left.
  - rewrite IH; [reflexivity |]. intros Hin. apply Hnot. now right.
Qed.

(** ** The table *)

Lemma PROJECTS_keys :
  dict_keys PROJECTS = ["jamiat"; "sama"; "safe"; "next"; "hamqadam"].
Proof. reflexivity. Qed.

Lemma PROJECTS_keys_distinct : NoDup (dict_keys PROJECTS).
Proof.
  rewrite PROJECTS_keys.
  repeat (constructor; [simpl; intuition discriminate |]). constructor.
Qed.

Lemma PROJECTS_complete :
  Forall (fun item => complete (snd item) = true) PROJECTS.
Proof. repeat constructor. Qed.

Lemma PROJECTS_fields (pid : string) (info : record) :
  In (pid, info) PROJECTS -> dict_keys info = field_names.
Proof.
  intros H. simpl in H.
  repeat (destruct H as [[= <- <-] | H]; [reflexivity |]). contradiction.
Qed.

Lemma PROJECTS_truthy (pid : string) (info : record) :
  In (pid, info) PROJECTS -> dict_truthy info = true.
Proof.
  intros H. apply PROJECTS_fields in H. now destruct info.
Qed.

Section Lookup.
Context {U : Unicode}.

Lemma lower_plain (s : string) :
  is_ascii s = true -> ascii_lower s = s -> lower s = s.
Proof. intros Ha Hl. now rewrite lower_ascii. Qed.

Lemma lower_of_key (pid : string) : In pid (dict_keys PROJECTS) -> lower pid = pid.
Proof.
  rewrite PROJECTS_keys. simpl.
  intros H. repeat (destruct H as [<- | H]; [now apply lower_plain |]). contradiction.
Qed.

Lemma present_iff_found (project_id : string) :
  present PROJECTS project_id
  <-> exists info, dict_get PROJECTS (lower project_id) = Some info.
Proof.
  split.
  - intros (pid & Hin & Heq). unfold eq_ci in Heq.
    rewrite Heq, (lower_of_key pid Hin). now apply dict_get_of_key.
  - intros (info & Hget). exists (lower project_id).
    assert (Hin : In (lower project_id) (dict_keys PROJECTS))
      by exact (dict_get_key_In _ _ _ Hget).
    split; [exact Hin |]. unfold eq_ci. now rewrite (lower_of_key _ Hin).
Qed.

Lemma absent_iff_missing (project_id : string) :
  ~ present PROJECTS project_id <-> dict_get PROJECTS (lower project_id) = None.
Proof.
  rewrite present_iff_found. destruct (dict_get PROJECTS (lower project_id)) as [info |].
  - split; [intros H; exfalso; apply H; now exists info | discriminate].
  - split; [reflexivity | intros _ (info & H); discriminate].
Qed.

Lemma available_ids :
  repr_list (dict_keys PROJECTS) = "['jamiat', 'sama', 'safe', 'next', 'hamqadam']".
Proof. reflexivity. Qed.

Lemma not_found_text (project_id : string) :
  not_found project_id PROJECTS
  = (Ok ("❌ Project '" ++ project_id
           ++ "' not found. Available: ['jamiat', 'sama', 'safe', 'next', 'hamqadam']"),
     PROJECTS).
Proof. unfold not_found, bind, read_PROJECTS, ret. now rewrite available_ids. Qed.

Lemma get_project_found (project_id : string) (info : record) :
  dict_get PROJECTS (lower project_id) = Some info ->
  get_project project_id PROJECTS = (Ok (Json.dumps_record 2 info), PROJECTS).
Proof.
  intros H. unfold get_project, bind, read_PROJECTS. rewrite H.
  now rewrite (PROJECTS_truthy _ _ (dict_get_In _ _ _ H)).
Qed.

Lemma get_project_missing (project_id : string) :
  dict_get PROJECTS (lower project_id) = None ->
  get_project project_id PROJECTS = not_found project_id PROJECTS.
Proof. intros H. unfold get_project, bind, read_PROJECTS. now rewrite H. Qed.

End Lookup.

Lemma list_ascii_of_append (a b : string) :
  list_ascii_of_string (a ++ b) = (list_ascii_of_string a ++ list_ascii_of_string b)%list.
Proof. induction a as [| x a IH]; simpl; [reflexivity | now rewrite IH]. Qed.

Lemma append_cancel_r (a b r : string) : a ++ r = b ++ r -> a = b.
Proof.
  intros H. apply (f_equal list_ascii_of_string) in H.
  rewrite !list_ascii_of_append in H. apply app_inv_tail in H.
  rewrite <- (string_of_list_ascii_of_string a), <- (string_of_list_ascii_of_string b).
  now rewrite H.
Qed.

(** Every record of the table is written without an escape: each member is
    its key and its value between double quotes. *)
Lemma PROJECTS_layout (pid : string) (info : record) :
  In (pid, info) PROJECTS ->
  Json.dumps_record 2 info
  = "{" ++ nl
        ++ join ("," ++ nl)
                (map (fun '(k, v) => "  " ++ dq ++ k ++ dq ++ ": " ++ dq ++ v ++ dq) info)
        ++ nl ++ "}".
Proof.
  intros H. simpl in H.
  repeat (destruct H as [[= <- <-] | H]; [reflexivity |]). contradiction.
Qed.

Section LookupClaims.
Context {U : Unicode}.

(** C5. For every id that names no record of the table up to case, the
    lookup raises nothing and returns a text that contains "not found" and
    ends with the list of all ids of the table, each between single quotes. *)
Theorem unknown_id_is_reported (project_id : string) :
  ~ present PROJECTS project_id ->
  exists text,
    get_project project_id PROJECTS = (Ok text, PROJECTS)
    /\ contains "not found" text
    /\ (exists before,
          text = before ++ "["
                   ++ join ", " (map (fun pid => "'" ++ pid ++ "'") (dict_keys PROJECTS))
                   ++ "]")
    /\ forall pid, In pid (dict_keys PROJECTS) -> contains ("'" ++ pid ++ "'") text.
Proof.
  intros Habsent. apply absent_iff_missing in Habsent.
  rewrite (get_project_missing _ Habsent), not_found_text.
  eexists. split; [reflexivity |].
  set (ids := "[" ++ join ", " (map (fun pid => "'" ++ pid ++ "'") (dict_keys PROJECTS)) ++ "]").
  change ("' not found. Available: ['jamiat', 'sama', 'safe', 'next', 'hamqadam']")
    with ("' " ++ "not found" ++ ". Available: " ++ ids).
  split; [| split].
  - do 3 apply contains_append_r. apply contains_here.
  - exists ("❌ Project '" ++ project_id ++ "' not found. Available: ").
    now rewrite !append_assoc.
  - intros pid Hin. do 5 apply contains_append_r.
    unfold ids. apply contains_append_r, contains_append_l, contains_join.
    now apply (in_map (fun pid => "'" ++ pid ++ "'")).
Qed.

Lemma lookup_same_when_present (a b : string) :
  eq_ci a b -> present PROJECTS a -> get_project a PROJECTS = get_project b PROJECTS.
Proof.
  unfold eq_ci. intros Heq Hp. apply present_iff_found in Hp as (info & Hget).
  rewrite (get_project_found a info Hget).
  rewrite Heq in Hget. now rewrite (get_project_found b info Hget).
Qed.

(** C4, as amended. Two ids that are equal up to case get the same answer
    when they name a record of the table; when they name none, each call
    answers with the not-found text that quotes its own argument as it was
    typed, so the two answers are equal only if the two ids are. *)
Theorem lookup_of_casing_variants (a b : string) :
  eq_ci a b ->
  (present PROJECTS a -> get_project a PROJECTS = get_project b PROJECTS)
  /\ (~ present PROJECTS a ->
      get_project a PROJECTS = not_found a PROJECTS
      /\ get_project b PROJECTS = not_found b PROJECTS
      /\ (get_project a PROJECTS = get_project b PROJECTS <-> a = b)).
Proof.
  intros Heq. split; [now apply lookup_same_when_present |].
  unfold eq_ci in Heq.
  - intros Habsent. apply absent_iff_missing in Habsent.
    assert (Hb : dict_get PROJECTS (lower b) = None) by now rewrite <- Heq.
    rewrite (get_project_missing a Habsent), (get_project_missing b Hb).
    repeat split; [| intros ->; reflexivity].
    rewrite !not_found_text. intros [= H].
    now apply append_cancel_r in H.
Qed.

(** The instance the specification names. *)
Lemma lookup_JAMIAT_jamiat :
  get_project "JAMIAT" PROJECTS = get_project "jamiat" PROJECTS.
Proof.
  assert (Heq : eq_ci "JAMIAT" "jamiat")
    by (unfold eq_ci; now rewrite !lower_ascii).
  apply (lookup_same_when_present _ _ Heq).
  exists "jamiat". split; [simpl; tauto | exact Heq].
Qed.

(** C6, as amended. For every id that names a record of the table up to
    case, the lookup returns that record as an indented JSON object whose
    members stand in the order in which the record was written in the table:
    name, website status, dashboard status, deployment platform, cost. *)
Theorem known_id_gives_record_in_declared_order (project_id : string) :
  present PROJECTS project_id ->
  exists pid info,
    In (pid, info) PROJECTS
    /\ eq_ci project_id pid
    /\ get_project project_id PROJECTS = (Ok (Json.dumps_record 2 info), PROJECTS)
    /\ dict_keys info = field_names
    /\ Json.dumps_record 2 info
       = "{" ++ nl
             ++ join ("," ++ nl)
                     (map (fun '(k, v) => "  " ++ dq ++ k ++ dq ++ ": " ++ dq ++ v ++ dq) info)
             ++ nl ++ "}".
Proof.
  intros Hp. apply present_iff_found in Hp as (info & Hget).
  pose proof (dict_get_In _ _ _ Hget) as Hin.
  exists (lower project_id), info. split; [exact Hin |]. split.
  - unfold eq_ci. symmetry. apply lower_of_key. exact (dict_get_key_In _ _ _ Hget).
  - split; [now apply get_project_found |].
    split; [exact (PROJECTS_fields _ _ Hin) | exact (PROJECTS_layout _ _ Hin)].
Qed.

End LookupClaims.

(** C5 at the id "nonexistent". *)
Lemma unknown_id_is_reported_witness :
  ~ @present ascii_unicode PROJECTS "nonexistent"
  /\ exists text,
       @get_project ascii_unicode "nonexistent" PROJECTS = (Ok text, PROJECTS)
       /\ contains "not found" text.
Proof.
  assert (H : ~ @present ascii_unicode PROJECTS "nonexistent")
    by (apply absent_iff_missing; reflexivity).
  split; [exact H |].
  destruct (@unknown_id_is_reported ascii_unicode "nonexistent" H) as (text & Hrun & Hnf & _).
  exists text. split; assumption.
Defined.

(** C4 at the ids "JAMIAT" and "jamiat". *)
Lemma lookup_of_casing_variants_witness :
  @eq_ci ascii_unicode "JAMIAT" "jamiat"
  /\ @get_project ascii_unicode "JAMIAT" PROJECTS = @get_project ascii_unicode "jamiat" PROJECTS.
Proof.
  assert (Heq : @eq_ci ascii_unicode "JAMIAT" "jamiat") by reflexivity.
  split; [exact Heq |].
  apply (proj1 (@lookup_of_casing_variants ascii_unicode "JAMIAT" "jamiat" Heq)).
  exists "jamiat". split; [simpl; tauto | exact Heq].
Defined.

(** C4 as stated fails: "GHOST" and "ghost" are equal up to case in every
    runtime, and the two lookups return different texts, each quoting its
    own argument. *)
Lemma lookup_echoes_the_casing :
  (forall U : Unicode, @eq_ci U "GHOST" "ghost")
  /\ (forall U : Unicode,
        @get_project U "GHOST" PROJECTS
        = (Ok "❌ Project 'GHOST' not found. Available: ['jamiat', 'sama', 'safe', 'next', 'hamqadam']",
           PROJECTS))
  /\ (forall U : Unicode,
        @get_project U "ghost" PROJECTS
        = (Ok "❌ Project 'ghost' not found. Available: ['jamiat', 'sama', 'safe', 'next', 'hamqadam']",
           PROJECTS))
  /\ (forall U : Unicode, @get_project U "GHOST" PROJECTS <> @get_project U "ghost" PROJECTS).
Proof.
  assert (Hl : forall U : Unicode, @lower U "GHOST" = "ghost")
    by (intros U; now rewrite lower_ascii).
  assert (Hr : forall U : Unicode, @lower U "ghost" = "ghost")
    by (intros U; now rewrite lower_ascii).
  assert (HG : forall U : Unicode,
             @get_project U "GHOST" PROJECTS = @not_found U "GHOST" PROJECTS)
    by (intros U; apply get_project_missing; now rewrite Hl).
  assert (Hg : forall U : Unicode,
             @get_project U "ghost" PROJECTS = @not_found U "ghost" PROJECTS)
    by (intros U; apply get_project_missing; now rewrite Hr).
  split; [intros U; unfold eq_ci; now rewrite Hl, Hr |].
  split; [intros U; now rewrite HG, not_found_text |].
  split; [intros U; now rewrite Hg, not_found_text |].
  intros U. rewrite HG, Hg, !not_found_text. discriminate.
Qed.

(** C6 as stated fails: the record of "jamiat" comes back with "name" first
    and "cost" last, while its members ordered by key start with "cost";
    the two texts differ. *)
Lemma lookup_is_not_sorted_by_key :
  exists info,
    dict_get PROJECTS "jamiat" = Some info
    /\ (forall U : Unicode,
          @get_project U "jamiat" PROJECTS = (Ok (Json.dumps_record 2 info), PROJECTS))
    /\ dict_keys info
       = ["name"; "website status"; "dashboard status"; "deployment platform"; "cost"]
    /\ dict_keys (sort_keys info)
       = ["cost"; "dashboard status"; "deployment platform"; "name"; "website status"]
    /\ Json.dumps_record 2 info <> Json.dumps_record 2 (sort_keys info).
Proof.
  eexists. split; [reflexivity |].
  split; [| split; [reflexivity | split; [reflexivity | vm_compute; discriminate]]].
  intros U. apply get_project_found. now rewrite lower_ascii.
Qed.

(** C6 at the id "SAMA". *)
Lemma known_id_gives_record_in_declared_order_witness :
  @present ascii_unicode PROJECTS "SAMA"
  /\ exists info,
       In ("sama", info) PROJECTS
       /\ @get_project ascii_unicode "SAMA" PROJECTS = (Ok (Json.dumps_record 2 info), PROJECTS)
       /\ dict_keys info = field_names.
Proof.
  assert (H : @present ascii_unicode PROJECTS "SAMA")
    by (exists "sama"; split; [simpl; tauto | reflexivity]).
  split; [exact H |].
  destruct (@known_id_gives_record_in_declared_order ascii_unicode "SAMA" H)
    as (pid & info & Hin & Heq & Hrun & Hkeys & _).
  exists info. split; [| split; assumption].
  replace "sama" with pid; [exact Hin |].
  assert (Hk : In pid (dict_keys PROJECTS))
    by (change pid with (fst (pid, info)); now apply in_map).
  transitivity (@lower ascii_unicode pid).
  - symmetry. exact (@lower_of_key ascii_unicode pid Hk).
  - symmetry. exact Heq.
Defined.

(** ** The search loop *)

Lemma complete_field (info : record) (f : string) :
  complete info = true -> In f field_names -> exists v, dict_get info f = Some v.
Proof.
  unfold complete. rewrite forallb_forall. intros H Hin.
  specialize (H f Hin). destruct (dict_get info f) as [v |]; [now exists v | discriminate].
Qed.

Section Search.
Context {U : Unicode}.

Lemma status_match_agrees (info : record) (field : string) (wanted : option string) :
  (exists v, dict_get info field = Some v) ->
  status_match info field wanted = Ok (field_agrees wanted (dict_get info field)).
Proof.
  intros (v & Hv). unfold status_match, dict_getitem, field_agrees. rewrite Hv.
  now destruct wanted.
Qed.

Lemma field_agrees_iff (wanted : option string) (info : record) (field : string) :
  field_agrees wanted (dict_get info field) = true <-> filter_holds wanted info field.
Proof.
  unfold field_agrees, filter_holds, eq_ci. destruct wanted as [w |].
  - destruct (dict_get info field) as [v |].
    + rewrite String.eqb_eq. split.
      * intros H w' [= <-]. now exists v.
      * intros H. destruct (H w eq_refl) as (v' & [= <-] & Heq). exact Heq.
    + split; [discriminate |]. intros H. destruct (H w eq_refl) as (v' & Hv & _). discriminate.
  - split; [intros _ w [=] | reflexivity].
Qed.

Lemma satisfies_iff (w d : option string) (info : record) :
  satisfies w d info = true
  <-> filter_holds w info "website status" /\ filter_holds d info "dashboard status".
Proof.
  unfold satisfies. now rewrite andb_true_iff, !field_agrees_iff.
Qed.

Lemma search_step_selects (w d : option string) (pid : string) (info : record)
      (matches st : table) :
  complete info = true ->
  ~ In pid (dict_keys matches) ->
  search_step w d pid info matches st
  = (Ok (matches ++ (if satisfies w d info then [(pid, info)] else []))%list, st).
Proof.
  intros Hc Hnew. unfold search_step, bind, lift.
  rewrite (status_match_agrees info "website status" w)
    by (apply complete_field; [exact Hc | simpl; tauto]).
  rewrite (status_match_agrees info "dashboard status" d)
    by (apply complete_field; [exact Hc | simpl; tauto]).
  fold (satisfies w d info). destruct (satisfies w d info); unfold ret.
  - now rewrite dict_set_new.
  - now rewrite app_nil_r.
Qed.

Lemma search_loop (w d : option string) (t : table) :
  Forall (fun item => complete (snd item) = true) t ->
  NoDup (dict_keys t) ->
  forall matches st,
    (forall k, In k (dict_keys t) -> ~ In k (dict_keys matches)) ->
    for_each (dict_items t) matches
             (fun '(pid, info) m => search_step w d pid info m) st
    = (Ok (matches ++ selected w d t)%list, st).
Proof.
  unfold dict_items.
  induction t as [| [pid info] t IH]; intros Hc Hnd matches st Hfresh; simpl.
  - unfold ret. now rewrite app_nil_r.
  - inversion Hc as [| ? ? Hinfo Hrest]; subst. simpl in Hinfo.
    simpl in Hnd. inversion Hnd as [| ? ? Hpid Hnd']; subst.
    unfold bind at 1. rewrite search_step_selects; [| exact Hinfo | apply Hfresh; now left].
    rewrite IH; [| exact Hrest | exact Hnd' |].
    + destruct (satisfies w d info); simpl; [| now rewrite app_nil_r].
      now rewrite <- app_assoc.
    + intros k Hk Hin. unfold dict_keys in Hin. rewrite map_app, in_app_iff in Hin.
      destruct Hin as [Hin | Hin].
      * apply (Hfresh k); [now right | exact Hin].
      * destruct (satisfies w d info); simpl in Hin; [| contradiction].
        destruct Hin as [<- | []]. now apply Hpid.
Qed.

(** On a table of complete records with distinct ids the tool answers with
    the selected records, or with the message when there is none. *)
Lemma search_by_status_on (w d : option string) (t : table) :
  Forall (fun item => complete (snd item) = true) t ->
  NoDup (dict_keys t) ->
  search_by_status w d t
  = (Ok (match selected w d t with
         | [] => "No projects found with website_status='" ++ format_opt w
                   ++ "', dashboard_status='" ++ format_opt d ++ "'"
         | _ :: _ => Json.dumps_table 2 (selected w d t)
         end), t).
Proof.
  intros Hc Hnd. unfold search_by_status.
  rewrite (bind_returns read_PROJECTS _ t t t eq_refl).
  rewrite (bind_returns _ _ _ _ _ (search_loop w d t Hc Hnd [] t (fun k _ H => H))).
  simpl app. now destruct (selected w d t).
Qed.

Lemma selected_iff (w d : option string) (t : table) (pid : string) (info : record) :
  In (pid, info) (selected w d t)
  <-> In (pid, info) t
      /\ filter_holds w info "website status"
      /\ filter_holds d info "dashboard status".
Proof. unfold selected. now rewrite filter_In, satisfies_iff. Qed.

Lemma lower_live : lower "live" = "live".
Proof. now apply lower_plain. Qed.

Lemma lower_development : lower "development" = "development".
Proof. now apply lower_plain. Qed.

Lemma selected_live_live :
  dict_keys (selected (Some "live") (Some "live") PROJECTS) = ["jamiat"; "safe"; "hamqadam"].
Proof.
  unfold selected, satisfies, PROJECTS. simpl.
  rewrite !lower_live, !lower_development. reflexivity.
Qed.

(** Without filters the search returns what the resource
    [tracker://projects/all] returns: the whole table. *)
Lemma search_without_filters_is_the_resource :
  search_by_status None None PROJECTS = all_projects_resource PROJECTS.
Proof.
  rewrite search_by_status_on; [reflexivity | apply PROJECTS_complete | apply PROJECTS_keys_distinct].
Qed.

(** The ids, keys and values of the table need no escape, so a non-empty
    selection of its records is serialized as [table_text] writes it. *)
Lemma dumps_table_text (t : table) :
  t <> [] ->
  (forall item, In item t -> In item PROJECTS) ->
  Json.dumps_table 2 t = table_text t.
Proof.
  intros Hne Hsub. destruct t as [| x t]; [contradiction |].
  unfold Json.dumps_table, table_text. unfold Json.encode_dict at 1. cbv beta iota.
  rewrite (map_ext_in _ (fun item => quoted (fst item) ++ ": " ++ record_text (snd item))
                      (x :: t)).
  - reflexivity.
  - intros item Hin. apply Hsub in Hin. simpl in Hin.
    repeat (destruct Hin as [<- | Hin]; [reflexivity |]). contradiction.
Qed.

Lemma search_by_status_text (w d : option string) :
  search_by_status w d PROJECTS
  = (Ok (match selected w d PROJECTS with
         | [] => "No projects found with website_status='" ++ format_opt w
                   ++ "', dashboard_status='" ++ format_opt d ++ "'"
         | _ :: _ => table_text (selected w d PROJECTS)
         end), PROJECTS).
Proof.
  rewrite search_by_status_on; [| apply PROJECTS_complete | apply PROJECTS_keys_distinct].
  destruct (selected w d PROJECTS) as [| x hits] eqn:Hsel; [reflexivity |].
  do 2 f_equal. apply dumps_table_text; [discriminate |].
  intros item Hin. rewrite <- Hsel in Hin. unfold selected in Hin.
  now apply filter_In in Hin.
Qed.

Lemma selected_live_live_records :
  selected (Some "live") (Some "live") PROJECTS
  = [ ("jamiat",   [("name", "Jamiat");   ("website status", "live"); ("dashboard status", "live");
                    ("deployment platform", "Vercel"); ("cost", "$20/mo")]);
      ("safe",     [("name", "SAFE");     ("website status", "live"); ("dashboard status", "live");
                    ("deployment platform", "Vercel"); ("cost", "$20/mo")]);
      ("hamqadam", [("name", "Hamqadam"); ("website status", "live"); ("dashboard status", "live");
                    ("deployment platform", "Vercel + Sanity"); ("cost", "$45/mo")]) ].
Proof.
  unfold selected, satisfies, PROJECTS. simpl.
  rewrite !lower_live, !lower_development. reflexivity.
Qed.

(** C1. Whatever the two optional filters, the search answers with exactly
    the records of the table for which each supplied filter equals the
    record's field up to case, both at once, an absent filter asking
    nothing; they come serialized in table order, and the message stands in
    for an empty selection. The text of a non-empty selection is written
    out character by character: a brace, then for each selected record its
    quoted id and its five quoted fields, indented by two and four spaces.
    Without filters every record is selected and the text is that of the
    whole table; with both filters "live" the records selected are those
    whose two status fields both equal "live", namely jamiat, safe and
    hamqadam, and the text is the twenty-three lines given. *)
Theorem search_returns_the_selected_records (website_status dashboard_status : option string) :
  let hits := selected website_status dashboard_status PROJECTS in
  search_by_status website_status dashboard_status PROJECTS
  = (Ok (match hits with
         | [] => "No projects found with website_status='" ++ format_opt website_status
                   ++ "', dashboard_status='" ++ format_opt dashboard_status ++ "'"
         | _ :: _ => Json.dumps_table 2 hits
         end), PROJECTS)
  /\ (forall pid info,
        In (pid, info) hits
        <-> In (pid, info) PROJECTS
            /\ filter_holds website_status info "website status"
            /\ filter_holds dashboard_status info "dashboard status")
  /\ search_by_status None None PROJECTS = (Ok (Json.dumps_table 2 PROJECTS), PROJECTS)
  /\ selected None None PROJECTS = PROJECTS
  /\ search_by_status (Some "live") (Some "live") PROJECTS
     = (Ok (Json.dumps_table 2 (selected (Some "live") (Some "live") PROJECTS)), PROJECTS)
  /\ dict_keys (selected (Some "live") (Some "live") PROJECTS) = ["jamiat"; "safe"; "hamqadam"]
  /\ search_by_status website_status dashboard_status PROJECTS
     = (Ok (match hits with
            | [] => "No projects found with website_status='" ++ format_opt website_status
                      ++ "', dashboard_status='" ++ format_opt dashboard_status ++ "'"
            | _ :: _ =>
                "{" ++ nl ++ "  "
                    ++ join ("," ++ nl ++ "  ")
                         (map (fun item =>
                                 quoted (fst item) ++ ": "
                                    ++ "{" ++ nl ++ "    "
                                    ++ join ("," ++ nl ++ "    ")
                                         (map (fun kv => quoted (fst kv) ++ ": "
                                                            ++ quoted (snd kv))
                                              (snd item))
                                    ++ nl ++ "  }")
                              hits)
                    ++ nl ++ "}"
            end), PROJECTS)
  /\ search_by_status None None PROJECTS = (Ok (table_text PROJECTS), PROJECTS)
  /\ search_by_status (Some "live") (Some "live") PROJECTS
     = (Ok (join nl
              [ "{";
                "  " ++ quoted "jamiat" ++ ": {";
                "    " ++ quoted "name" ++ ": " ++ quoted "Jamiat" ++ ",";
                "    " ++ quoted "website status" ++ ": " ++ quoted "live" ++ ",";
                "    " ++ quoted "dashboard status" ++ ": " ++ quoted "live" ++ ",";
                "    " ++ quoted "deployment platform" ++ ": " ++ quoted "Vercel" ++ ",";
                "    " ++ quoted "cost" ++ ": " ++ quoted "$20/mo";
                "  },";
                "  " ++ quoted "safe" ++ ": {";
                "    " ++ quoted "name" ++ ": " ++ quoted "SAFE" ++ ",";
                "    " ++ quoted "website status" ++ ": " ++ quoted "live" ++ ",";
                "    " ++ quoted "dashboard status" ++ ": " ++ quoted "live" ++ ",";
                "    " ++ quoted "deployment platform" ++ ": " ++ quoted "Vercel" ++ ",";
                "    " ++ quoted "cost" ++ ": " ++ quoted "$20/mo";
                "  },";
                "  " ++ quoted "hamqadam" ++ ": {";
                "    " ++ quoted "name" ++ ": " ++ quoted "Hamqadam" ++ ",";
                "    " ++ quoted "website status" ++ ": " ++ quoted "live" ++ ",";
                "    " ++ quoted "dashboard status" ++ ": " ++ quoted "live" ++ ",";
                "    " ++ quoted "deployment platform" ++ ": " ++ quoted "Vercel + Sanity" ++ ",";
                "    " ++ quoted "cost" ++ ": " ++ quoted "$45/mo";
                "  }";
                "}" ]), PROJECTS).
Proof.
  intros hits.
  split; [apply search_by_status_on; [apply PROJECTS_complete | apply PROJECTS_keys_distinct] |].
  split; [intros pid info; apply selected_iff |].
  split; [rewrite search_by_status_on;
          [reflexivity | apply PROJECTS_complete | apply PROJECTS_keys_distinct] |].
  split; [reflexivity |].
  split.
  { rewrite search_by_status_on; [| apply PROJECTS_complete | apply PROJECTS_keys_distinct].
    pose proof selected_live_live as H.
    now destruct (selected (Some "live") (Some "live") PROJECTS). }
  split; [apply selected_live_live |].
  split; [exact (search_by_status_text website_status dashboard_status) |].
  split; [exact (search_by_status_text None None) |].
  rewrite search_by_status_text, selected_live_live_records.
  vm_compute. reflexivity.
Qed.

(** C10. When the selection is empty the message shows each filter through
    plain string formatting, so a filter that was not supplied appears as
    the word None between the quotes: a search by website status alone that
    matches nothing says dashboard_status='None', and the other way round. *)
Theorem absent_filter_is_shown_as_None (website_status dashboard_status : option string) :
  selected website_status dashboard_status PROJECTS = [] ->
  exists text,
    search_by_status website_status dashboard_status PROJECTS = (Ok text, PROJECTS)
    /\ text = "No projects found with website_status='" ++ format_opt website_status
                ++ "', dashboard_status='" ++ format_opt dashboard_status ++ "'"
    /\ (dashboard_status = None -> contains "dashboard_status='None'" text)
    /\ (website_status = None -> contains "website_status='None'" text).
Proof.
  intros Hempty. eexists. split; [| split; [reflexivity |]].
  - rewrite search_by_status_on; [| apply PROJECTS_complete | apply PROJECTS_keys_distinct].
    now rewrite Hempty.
  - split.
    + intros ->. do 2 apply contains_append_r. now exists "', ", "".
    + intros ->. exists "No projects found with ".
      exists (", dashboard_status='" ++ format_opt dashboard_status ++ "'").
      reflexivity.
Qed.

End Search.

(** C10 at a search for the website status "offline" alone. *)
Lemma absent_filter_is_shown_as_None_witness :
  @selected ascii_unicode (Some "offline") None PROJECTS = []
  /\ @search_by_status ascii_unicode (Some "offline") None PROJECTS
     = (Ok "No projects found with website_status='offline', dashboard_status='None'", PROJECTS).
Proof.
  assert (H : @selected ascii_unicode (Some "offline") None PROJECTS = []) by reflexivity.
  split; [exact H |].
  destruct (@absent_filter_is_shown_as_None ascii_unicode (Some "offline") None H)
    as (text & Hrun & -> & _).
  exact Hrun.
Defined.

Lemma all_some_cons {A} (x : option A) (l : list (option A)) (r : list A) :
  all_some (x :: l) = Some r ->
  exists a r', x = Some a /\ all_some l = Some r' /\ r = a :: r'.
Proof.
  simpl. destruct x as [a |]; [| discriminate].
  destruct (all_some l) as [r' |]; [| discriminate].
  intros [= <-]. now exists a, r'.
Qed.

(** ** The listing *)

Lemma summary_line_listing (pid : string) (info : record) (line : string) :
  listing_line pid info = Some line -> summary_line pid info = Ok line.
Proof.
  unfold listing_line, summary_line, dict_getitem. simpl.
  destruct (dict_get info "name") as [name |]; [| discriminate].
  destruct (dict_get info "website status") as [website |]; [| discriminate].
  destruct (dict_get info "dashboard status") as [dashboard |]; [| discriminate].
  destruct (dict_get info "deployment platform") as [platform |]; [| discriminate].
  destruct (dict_get info "cost") as [cost |]; [| discriminate].
  intros [= <-]. unfold join. simpl. repeat (rewrite append_assoc; simpl). reflexivity.
Qed.

Lemma list_loop (t : table) :
  forall lines summary st,
    all_some (map (fun item => listing_line (fst item) (snd item)) t) = Some lines ->
    for_each (dict_items t) summary
             (fun '(pid, info) summary =>
                line <- lift (summary_line pid info) ;; ret (append summary line)) st
    = (Ok (summary ++ lines)%list, st).
Proof.
  unfold dict_items. induction t as [| [pid info] t IH]; intros lines summary st; simpl.
  - intros [= <-]. unfold ret. now rewrite app_nil_r.
  - intros H. apply all_some_cons in H as (line & rest & Hline & Hrest & ->).
    simpl in Hline. unfold bind at 1, bind at 1, lift.
    rewrite (summary_line_listing _ _ _ Hline). unfold ret at 1.
    rewrite (IH rest _ _ Hrest). unfold append. now rewrite <- app_assoc.
Qed.

(** On a table of records that have the five fields the listing is the
    lines of the records, in table order, joined by newlines. *)
Lemma list_projects_on (t : table) (lines : list string) :
  all_some (map (fun item => listing_line (fst item) (snd item)) t) = Some lines ->
  list_projects t = (Ok (join nl lines), t).
Proof.
  intros H. unfold list_projects.
  rewrite (bind_returns read_PROJECTS _ t t t eq_refl).
  now rewrite (bind_returns _ _ _ _ _ (list_loop t lines [] t H)).
Qed.

Lemma list_projects_PROJECTS :
  list_projects PROJECTS
  = (Ok (join nl ["• Jamiat (jamiat) - live - live - Vercel - $20/mo";
                  "• SAMA (sama) - live - development - Vercel - $20/mo";
                  "• SAFE (safe) - live - live - Vercel - $20/mo";
                  "• NEXT (next) - live - development - Vercel - $20/mo";
                  "• Hamqadam (hamqadam) - live - live - Vercel + Sanity - $45/mo"]),
     PROJECTS).
Proof. now apply list_projects_on. Qed.

(** C7. The listing takes no argument and returns one line per record of
    the table, in table order: splitting its text at the newlines gives as
    many lines as there are records, and the line of a record is a bullet
    followed by the name (with the id in parentheses after it), the website
    status, the dashboard status, the platform and the cost, joined by the
    delimiter " - ". *)
Theorem listing_has_one_line_per_record :
  exists text lines,
    list_projects PROJECTS = (Ok text, PROJECTS)
    /\ split_on "010"%char text = lines
    /\ List.length lines = List.length PROJECTS
    /\ Forall2 (fun item line =>
                  exists name website dashboard platform cost,
                    map (dict_get (snd item)) field_names
                    = [Some name; Some website; Some dashboard; Some platform; Some cost]
                    /\ line = "• " ++ join " - " [name ++ " (" ++ fst item ++ ")";
                                                  website; dashboard; platform; cost])
               PROJECTS lines.
Proof.
  eexists. eexists.
  split; [exact list_projects_PROJECTS |].
  split; [vm_compute; reflexivity |].
  split; [reflexivity |].
  repeat (constructor; [do 5 eexists; split; reflexivity |]). constructor.
Qed.

(** ** The total *)

Lemma exact_0 : exact 0.
Proof. unfold exact. simpl. lia. Qed.

Lemma magnitude_of_literal_zero (cost : string) (m : Z) :
  literal_zero cost = true -> magnitude cost = Some m -> m = 0%Z.
Proof.
  unfold literal_zero, magnitude. rewrite String.eqb_eq. intros ->. now intros [= <-].
Qed.

Lemma sum_Z_cons (m : Z) (ms : list Z) : sum_Z (m :: ms) = (m + sum_Z ms)%Z.
Proof. reflexivity. Qed.

Lemma sum_Z_nonneg (ms : list Z) : Forall (fun m => 0 <= m)%Z ms -> (0 <= sum_Z ms)%Z.
Proof.
  induction 1 as [| m ms Hm _ IH]; [unfold sum_Z; simpl; lia |].
  rewrite sum_Z_cons. lia.
Qed.

Section Total.
Context {F : Binary64}.

Lemma parse_cost_magnitude (cost : string) (m : Z) :
  magnitude cost = Some m -> exact m ->
  parse_cost cost = Ok (if literal_zero cost then PyInt 0 else PyFloat (fl m)).
Proof.
  unfold magnitude, parse_cost, literal_zero, py_float. intros Hm He.
  destruct (_ =? "0"); [reflexivity |].
  now rewrite (float_of_str_digits _ _ Hm He).
Qed.

Lemma py_add_running (o : option Z) (cost : string) (m : Z) :
  magnitude cost = Some m ->
  exact (running_value o) -> exact m -> exact (running_value o + m) ->
  py_add (running_num o) (if literal_zero cost then PyInt 0 else PyFloat (fl m))
  = Ok (running_num (if literal_zero cost then o else Some (running_value o + m)%Z)).
Proof.
  intros Hm Ho He Hsum. destruct (literal_zero cost) eqn:Hz.
  - destruct o as [s |]; simpl; [| reflexivity].
    rewrite (float_of_int_exact 0 exact_0), float_add_exact; simpl in *;
      rewrite ?Z.add_0_r; auto using exact_0.
  - destruct o as [s |]; simpl.
    + now rewrite float_add_exact.
    + rewrite (float_of_int_exact 0 exact_0), float_add_exact; auto using exact_0.
Qed.

Lemma total_cost_step_on (pid : string) (info : record) (o : option Z)
      (breakdown : list string) (st : table) (m : Z) (line : string) :
  record_magnitude info = Some m ->
  breakdown_line info = Some line ->
  exact (running_value o) -> exact m -> exact (running_value o + m) ->
  exists o',
    total_cost_step pid info (running_num o, breakdown) st
    = (Ok (running_num o', append breakdown line), st)
    /\ running_value o' = (running_value o + m)%Z
    /\ (o' = None
        <-> o = None
            /\ match dict_get info "cost" with
               | Some cost => negb (literal_zero cost)
               | None => false
               end = false).
Proof.
  unfold record_magnitude, breakdown_line, total_cost_step, dict_getitem, bind, lift.
  destruct (dict_get info "cost") as [cost |]; [| discriminate].
  destruct (dict_get info "name") as [name |]; [| discriminate].
  intros Hm [= <-] Ho He Hsum.
  rewrite (parse_cost_magnitude cost m Hm He), (py_add_running o cost m Hm Ho He Hsum).
  eexists. split; [reflexivity |].
  destruct (literal_zero cost) eqn:Hz; simpl.
  - rewrite (magnitude_of_literal_zero cost m Hz Hm). split; [lia | tauto].
  - split; [reflexivity |]. split; [discriminate | intros [_ [=]]].
Qed.

Lemma total_loop (t : table) :
  forall ms lines o breakdown st,
    magnitudes t = Some ms ->
    all_some (map (fun item => breakdown_line (snd item)) t) = Some lines ->
    Forall (fun m => 0 <= m)%Z ms ->
    (0 <= running_value o)%Z ->
    (running_value o + sum_Z ms <= 2 ^ 53)%Z ->
    exists o',
      for_each (dict_items t) (running_num o, breakdown)
               (fun '(pid, info) acc => total_cost_step pid info acc) st
      = (Ok (running_num o', (breakdown ++ lines)%list), st)
      /\ running_value o' = (running_value o + sum_Z ms)%Z
      /\ (o' = None <-> o = None /\ total_is_float t = false).
Proof.
  unfold dict_items, magnitudes.
  induction t as [| [pid info] t IH]; intros ms lines o breakdown st Hms Hlines Hpos Ho Hbound.
  - simpl in Hms, Hlines. injection Hms as <-. injection Hlines as <-.
    exists o. rewrite app_nil_r. simpl.
    split; [reflexivity |]. split; [lia | tauto].
  - rewrite map_cons in Hms, Hlines.
    apply all_some_cons in Hms as (m & ms' & Hm & Hms & ->).
    apply all_some_cons in Hlines as (line & lines' & Hline & Hlines & ->).
    cbn [snd] in Hm, Hline.
    inversion Hpos as [| ? ? Hm0 Hpos']; subst.
    assert (Hsum' : (0 <= sum_Z ms')%Z) by now apply sum_Z_nonneg.
    rewrite sum_Z_cons in *.
    destruct (total_cost_step_on pid info o breakdown st m line Hm Hline)
      as (o1 & Hstep & Hval1 & Hnone1); try (unfold exact; lia).
    cbn [for_each]. rewrite (bind_returns _ _ _ _ _ Hstep).
    destruct (IH ms' lines' o1 (append breakdown line) st Hms Hlines Hpos')
      as (o' & Hloop & Hval & Hnone); try lia.
    exists o'. split; [| split].
    + rewrite Hloop. unfold append. now rewrite <- app_assoc.
    + lia.
    + cbn [total_is_float existsb snd]. fold (total_is_float t).
      rewrite Hnone, Hnone1, orb_false_iff. tauto.
Qed.

(** On a table whose cost fields have exact magnitudes the tool answers with
    the header, one breakdown line per record and the total of the
    magnitudes. *)
Lemma get_total_cost_on (t : table) (ms : list Z) (lines : list string) :
  magnitudes t = Some ms ->
  all_some (map (fun item => breakdown_line (snd item)) t) = Some lines ->
  Forall (fun m => 0 <= m)%Z ms ->
  (sum_Z ms <= 2 ^ 53)%Z ->
  get_total_cost t
  = (Ok ("Monthly Hosting Breakdown:" ++ nl ++ join nl lines ++ nl ++ nl
           ++ "Total: $" ++ shown_total t (sum_Z ms) ++ "/mo"), t).
Proof.
  intros Hms Hlines Hpos Hbound.
  destruct (total_loop t ms lines None [] t Hms Hlines Hpos) as (o' & Hloop & Hval & Hnone);
    [simpl; lia | simpl; lia |].
  assert (Hs : (0 <= sum_Z ms)%Z) by now apply sum_Z_nonneg.
  simpl in Hval.
  assert (Hshown : py_format_num (running_num o') = shown_total t (sum_Z ms)).
  { unfold shown_total. destruct o' as [s |]; simpl in *.
    - destruct (total_is_float t) eqn:Hf.
      + rewrite float_repr_exact, Hval; [reflexivity | unfold exact; lia].
      + discriminate (proj2 Hnone (conj eq_refl eq_refl)).
    - destruct (total_is_float t) eqn:Hf.
      + destruct (proj1 Hnone eq_refl) as [_ H]. discriminate H.
      + now rewrite <- Hval. }
  unfold get_total_cost.
  rewrite (bind_returns read_PROJECTS _ t t t eq_refl).
  rewrite (bind_returns _ _ _ _ _ Hloop).
  cbv beta iota zeta. unfold ret. rewrite Hshown. simpl app.
  now rewrite !append_assoc.
Qed.

Lemma get_total_cost_PROJECTS :
  get_total_cost PROJECTS
  = (Ok ("Monthly Hosting Breakdown:" ++ nl
           ++ "  Jamiat: $20/mo" ++ nl
           ++ "  SAMA: $20/mo" ++ nl
           ++ "  SAFE: $20/mo" ++ nl
           ++ "  NEXT: $20/mo" ++ nl
           ++ "  Hamqadam: $45/mo" ++ nl ++ nl
           ++ "Total: $125.0/mo"), PROJECTS).
Proof.
  assert (Hpos : Forall (fun m => 0 <= m)%Z [20; 20; 20; 20; 45]%Z)
    by (repeat constructor; lia).
  assert (Hbound : (sum_Z [20; 20; 20; 20; 45] <= 2 ^ 53)%Z)
    by (vm_compute; discriminate).
  exact (get_total_cost_on PROJECTS _ _ eq_refl eq_refl Hpos Hbound).
Qed.

(** C2. The total the tool reports is the sum, over the records of the
    table, of the magnitude of each cost string once its currency symbol and
    its period suffix are stripped (20, 20, 20, 20 and 45, hence 125, shown
    as the float 125.0), and the text is the header, one breakdown line per
    record in table order, an empty line and the total line. *)
Theorem total_cost_is_the_sum_of_magnitudes :
  exists ms lines,
    magnitudes PROJECTS = Some ms
    /\ ms = [20; 20; 20; 20; 45]%Z
    /\ sum_Z ms = 125%Z
    /\ all_some (map (fun item => breakdown_line (snd item)) PROJECTS) = Some lines
    /\ List.length lines = List.length PROJECTS
    /\ get_total_cost PROJECTS
       = (Ok ("Monthly Hosting Breakdown:" ++ nl ++ join nl lines ++ nl ++ nl
                ++ "Total: $" ++ string_of_Z (sum_Z ms) ++ ".0" ++ "/mo"), PROJECTS)
    /\ get_total_cost PROJECTS
       = (Ok ("Monthly Hosting Breakdown:" ++ nl
                ++ "  Jamiat: $20/mo" ++ nl
                ++ "  SAMA: $20/mo" ++ nl
                ++ "  SAFE: $20/mo" ++ nl
                ++ "  NEXT: $20/mo" ++ nl
                ++ "  Hamqadam: $45/mo" ++ nl ++ nl
                ++ "Total: $125.0/mo"), PROJECTS).
Proof.
  exists [20; 20; 20; 20; 45]%Z.
  exists ["  Jamiat: $20/mo"; "  SAMA: $20/mo"; "  SAFE: $20/mo"; "  NEXT: $20/mo";
          "  Hamqadam: $45/mo"].
  split; [reflexivity |]. split; [reflexivity |]. split; [reflexivity |].
  split; [reflexivity |]. split; [reflexivity |].
  split; exact get_total_cost_PROJECTS.
Qed.

(** A cost string that strips to the literal 0 stays the [int] 0: alone it
    gives an [int] total, next to other costs it adds nothing. *)
Lemma total_of_free_projects :
  get_total_cost [("a", [("name", "A"); ("cost", "$0/mo")]);
                  ("b", [("name", "B"); ("cost", "0")])]
  = (Ok ("Monthly Hosting Breakdown:" ++ nl ++ "  A: $0/mo" ++ nl ++ "  B: 0"
           ++ nl ++ nl ++ "Total: $0/mo"),
     [("a", [("name", "A"); ("cost", "$0/mo")]); ("b", [("name", "B"); ("cost", "0")])]).
Proof.
  assert (Hpos : Forall (fun m => 0 <= m)%Z [0; 0]%Z) by (repeat constructor; lia).
  assert (Hbound : (sum_Z [0; 0] <= 2 ^ 53)%Z) by (vm_compute; discriminate).
  exact (get_total_cost_on
           [("a", [("name", "A"); ("cost", "$0/mo")]); ("b", [("name", "B"); ("cost", "0")])]
           [0; 0]%Z ["  A: $0/mo"; "  B: 0"] eq_refl eq_refl Hpos Hbound).
Qed.

Lemma total_with_a_free_project :
  get_total_cost [("a", [("name", "A"); ("cost", "$0/mo")]);
                  ("b", [("name", "B"); ("cost", "$7/mo")])]
  = (Ok ("Monthly Hosting Breakdown:" ++ nl ++ "  A: $0/mo" ++ nl ++ "  B: $7/mo"
           ++ nl ++ nl ++ "Total: $7.0/mo"),
     [("a", [("name", "A"); ("cost", "$0/mo")]); ("b", [("name", "B"); ("cost", "$7/mo")])]).
Proof.
  assert (Hpos : Forall (fun m => 0 <= m)%Z [0; 7]%Z) by (repeat constructor; lia).
  assert (Hbound : (sum_Z [0; 7] <= 2 ^ 53)%Z) by (vm_compute; discriminate).
  exact (get_total_cost_on
           [("a", [("name", "A"); ("cost", "$0/mo")]); ("b", [("name", "B"); ("cost", "$7/mo")])]
           [0; 7]%Z ["  A: $0/mo"; "  B: $7/mo"] eq_refl eq_refl Hpos Hbound).
Qed.

End Total.

(** Replacing one record by another changes the sum of the magnitudes by
    the difference of the two magnitudes; with [get_total_cost_on] this is
    the change of the reported total. *)
Lemma total_changes_by_the_delta (t1 t2 : table) (pid : string) (info info' : record)
      (ms ms' : list Z) :
  magnitudes (t1 ++ (pid, info) :: t2)%list = Some ms ->
  magnitudes (t1 ++ (pid, info') :: t2)%list = Some ms' ->
  exists m m',
    record_magnitude info = Some m /\ record_magnitude info' = Some m'
    /\ (sum_Z ms' - sum_Z ms = m' - m)%Z.
Proof.
  unfold magnitudes. revert ms ms'.
  induction t1 as [| [k r] t1 IH]; intros ms ms' H H'.
  - simpl app in H, H'. rewrite map_cons in H, H'.
    apply all_some_cons in H as (m & rest & Hm & Hrest & ->).
    apply all_some_cons in H' as (m' & rest' & Hm' & Hrest' & ->).
    rewrite Hrest in Hrest'. injection Hrest' as <-.
    exists m, m'. repeat split; [exact Hm | exact Hm' |]. rewrite !sum_Z_cons. lia.
  - rewrite <- !app_comm_cons, !map_cons in H, H'.
    apply all_some_cons in H as (a & rest & Ha & Hrest & ->).
    apply all_some_cons in H' as (a' & rest' & Ha' & Hrest' & ->).
    rewrite Ha in Ha'. injection Ha' as <-.
    destruct (IH rest rest' Hrest Hrest') as (m & m' & Hm & Hm' & Hsum).
    exists m, m'. repeat split; [exact Hm | exact Hm' |]. rewrite !sum_Z_cons. lia.
Qed.

(** ** The dispatcher in front of the tools *)

Section DispatchClaims.
Import Dispatch.
Context {U : Unicode} {F : Binary64}.
Variable coerce : ptype -> value -> option string.

Lemma lookup_unregistered (r : registry) (name : string) :
  (forall d, In d r -> op_name d <> name) ->
  lookup r name = inl (UnknownOperationError name).
Proof.
  induction r as [| d r IH]; intros H; simpl; [reflexivity |].
  destruct (String.eqb_spec (op_name d) name) as [Heq | _].
  - exfalso. apply (H d); [now left | exact Heq].
  - apply IH. intros d' Hin. apply H. now right.
Qed.



(** The four registrations succeed and give [tools], in source order. *)
Lemma tools_registered :
  exists r1 r2 r3,
    register [] op_get_project = inr r1
    /\ register r1 op_list_projects = inr r2
    /\ register r2 op_get_total_cost = inr r3
    /\ register r3 op_search_by_status = inr tools
    /\ map op_name (list_operations tools)
       = ["get_project"; "list_projects"; "get_total_cost"; "search_by_status"].
Proof. do 3 eexists. repeat split; reflexivity. Qed.






(** C8. A name that no registered operation bears makes [invoke] fail with
    UnknownOperationError, whatever the arguments and the store; and the
    single-record lookup invoked without its required id makes it fail with
    MissingArgumentError, whatever else the arguments hold. In neither case
    is a string returned. *)
Theorem structural_faults_are_raised :
  (forall (name : string) (args : dict value) (st : table),
     (forall d, In d tools -> op_name d <> name) ->
     invoke coerce tools name args st = (Failed (UnknownOperationError name), st)
     /\ forall text, fst (invoke coerce tools name args st) <> Returned text)
  /\ (forall (args : dict value) (st : table),
        dict_get args "project_id" = None ->
        invoke coerce tools "get_project" args st
        = (Failed (MissingArgumentError "project_id"), st)
        /\ forall text, fst (invoke coerce tools "get_project" args st) <> Returned text).
Proof.
  split.
  - intros name args st Hname.
    assert (H : invoke coerce tools name args st = (Failed (UnknownOperationError name), st))
      by (unfold invoke; now rewrite (lookup_unregistered tools name Hname)).
    split; [exact H |]. intros text. rewrite H. discriminate.
  - intros args st Hargs.
    assert (H : invoke coerce tools "get_project" args st
                = (Failed (MissingArgumentError "project_id"), st))
      by (unfold invoke; simpl; now rewrite Hargs).
    split; [exact H |]. intros text. rewrite H. discriminate.
Qed.


End DispatchClaims.

(** C8 at the calls of the specification, an unregistered name and the
    lookup, both with the empty argument mapping, and at the unregistered
    name invoked with a project id. *)
Lemma structural_faults_are_raised_witness :
  Dispatch.invoke Dispatch.strict_coerce
                  (@Dispatch.tools ascii_unicode integer_floats) "no_such_op" [] PROJECTS
  = (Dispatch.Failed (Dispatch.UnknownOperationError "no_such_op"), PROJECTS)
  /\ Dispatch.invoke Dispatch.strict_coerce
                     (@Dispatch.tools ascii_unicode integer_floats) "no_such_op"
                     [("project_id", Dispatch.VStr "jamiat")] PROJECTS
     = (Dispatch.Failed (Dispatch.UnknownOperationError "no_such_op"), PROJECTS)
  /\ Dispatch.invoke Dispatch.strict_coerce
                     (@Dispatch.tools ascii_unicode integer_floats) "get_project" [] PROJECTS
     = (Dispatch.Failed (Dispatch.MissingArgumentError "project_id"), PROJECTS).
Proof.
  assert (Hname : forall d, In d (@Dispatch.tools ascii_unicode integer_floats) ->
                            Dispatch.op_name d <> "no_such_op").
  { intros d Hd. simpl in Hd.
    destruct Hd as [<- | [<- | [<- | [<- | []]]]]; discriminate. }
  destruct (@structural_faults_are_raised ascii_unicode integer_floats Dispatch.strict_coerce)
    as [Hunknown Hmissing].
  split; [exact (proj1 (Hunknown "no_such_op" [] PROJECTS Hname)) |].
  split; [exact (proj1 (Hunknown "no_such_op" [("project_id", Dispatch.VStr "jamiat")]
                                 PROJECTS Hname)) |].
  exact (proj1 (Hmissing [] PROJECTS eq_refl)).
Defined.

(** * Further properties of the tools, on any table

    The tools read the global [PROJECTS], which the source announces will be
    replaced by a database; what follows holds for every value the global
    may be bound to, not only for the five records of the source. *)

(** ** Loops *)

Lemma bind_raises {A B} (m : M A) (k : A -> M B) (st st' : table) (e : exn) :
  m st = (Raise e, st') -> bind m k st = (Raise e, st').
Proof. intros H. unfold bind. now rewrite H. Qed.

Lemma for_each_app {A S} (body : A -> S -> M S) (l1 l2 : list A) :
  forall acc st,
    for_each (l1 ++ l2)%list acc body st
    = bind (for_each l1 acc body) (fun acc' => for_each l2 acc' body) st.
Proof.
  induction l1 as [| x l1 IH]; intros acc st; [reflexivity |].
  simpl. unfold bind.
  destruct (body x acc st) as [[acc' | e] st']; [| reflexivity].
  rewrite IH. reflexivity.
Qed.

Lemma bind_lift_returns {A B} (r : result A) (k : A -> M B) (st : table) (a : A) :
  r = Ok a -> bind (lift r) k st = k a st.
Proof. intros ->. reflexivity. Qed.

(** A loop whose body fails on an item stops there with that exception. *)
Lemma for_each_raises {A S} (body : A -> S -> M S) (l1 l2 : list A) (x : A)
      (acc acc1 : S) (st : table) (e : exn) :
  for_each l1 acc body st = (Ok acc1, st) ->
  body x acc1 st = (Raise e, st) ->
  for_each (l1 ++ x :: l2)%list acc body st = (Raise e, st).
Proof.
  intros H1 Hx. rewrite for_each_app, (bind_returns _ _ _ _ _ H1).
  simpl. now apply bind_raises.
Qed.

(** ** The lookup on any table *)

Lemma lower_char_idempotent (c : ascii) : lower_char (lower_char c) = lower_char c.
Proof. destruct c as [[] [] [] [] [] [] [] []]; reflexivity. Qed.

Lemma ascii_lower_idempotent (s : string) : ascii_lower (ascii_lower s) = ascii_lower s.
Proof.
  induction s as [| c s IH]; simpl; [reflexivity |].
  now rewrite lower_char_idempotent, IH.
Qed.

Lemma dict_get_absent {V} (d : dict V) (k : string) :
  ~ In k (dict_keys d) -> dict_get d k = None.
Proof.
  intros H. destruct (dict_get d k) as [v |] eqn:Hget; [| reflexivity].
  exfalso. apply H. exact (dict_get_key_In _ _ _ Hget).
Qed.

Section LookupOnAnyTable.
Context {U : Unicode}.

(** X1. A record that is an empty dict counts as missing: whatever the
    table, when the id leads to an empty record the lookup answers with the
    not-found text, although the very id it looked for stands in the list of
    available ids that the text ends with. *)
Theorem empty_record_is_reported_missing (st : table) (project_id : string) :
  dict_get st (lower project_id) = Some [] ->
  get_project project_id st
  = (Ok ("❌ Project '" ++ project_id ++ "' not found. Available: "
           ++ repr_list (dict_keys st)), st)
  /\ In (lower project_id) (dict_keys st)
  /\ contains (repr_str (lower project_id)) (repr_list (dict_keys st)).
Proof.
  intros Hget. pose proof (dict_get_key_In _ _ _ Hget) as Hin.
  split; [| split; [exact Hin |]].
  - unfold get_project. rewrite (bind_returns read_PROJECTS _ st st st eq_refl).
    now rewrite Hget.
  - unfold repr_list. apply contains_append_r, contains_append_l, contains_join.
    now apply in_map.
Qed.

(** X2. The lookup lower-cases the id it is given and never the keys of the
    table, so a key with an upper-case letter is out of reach: no id made of
    code points below 128 is turned into it, and asking for the key by its
    own spelling gives the not-found text unless its lower-case spelling is
    a key too. *)
Theorem mixed_case_key_is_out_of_reach (st : table) (key : string) :
  In key (dict_keys st) ->
  is_ascii key = true ->
  ascii_lower key <> key ->
  (forall project_id, is_ascii project_id = true -> lower project_id <> key)
  /\ (~ In (ascii_lower key) (dict_keys st) ->
      get_project key st = not_found key st).
Proof.
  intros Hin Hascii Hupper. split.
  - intros project_id Hid Heq. apply Hupper.
    rewrite (lower_ascii _ Hid) in Heq. rewrite <- Heq.
    apply ascii_lower_idempotent.
  - intros Hfree. unfold get_project.
    rewrite (bind_returns read_PROJECTS _ st st st eq_refl).
    now rewrite (lower_ascii _ Hascii), (dict_get_absent _ _ Hfree).
Qed.

End LookupOnAnyTable.

(** X1 on a table with one empty record. *)
Lemma empty_record_is_reported_missing_witness :
  @get_project ascii_unicode "GHOST" [("ghost", [])]
  = (Ok "❌ Project 'GHOST' not found. Available: ['ghost']", [("ghost", [])]).
Proof.
  exact (proj1 (@empty_record_is_reported_missing ascii_unicode
                  [("ghost", [])] "GHOST" eq_refl)).
Defined.

(** X2 on a table whose only key is "Jamiat". *)
Lemma mixed_case_key_is_out_of_reach_witness :
  @get_project ascii_unicode "Jamiat" [("Jamiat", [("name", "Jamiat")])]
  = (Ok "❌ Project 'Jamiat' not found. Available: ['Jamiat']",
     [("Jamiat", [("name", "Jamiat")])]).
Proof.
  assert (Hin : In "Jamiat" (dict_keys [("Jamiat", [("name", "Jamiat")])]))
    by (simpl; tauto).
  assert (Hupper : ascii_lower "Jamiat" <> "Jamiat") by discriminate.
  assert (Hfree : ~ In (ascii_lower "Jamiat") (dict_keys [("Jamiat", [("name", "Jamiat")])]))
    by (simpl; intros [H | []]; discriminate H).
  exact (proj2 (@mixed_case_key_is_out_of_reach ascii_unicode
                  [("Jamiat", [("name", "Jamiat")])] "Jamiat" Hin eq_refl Hupper) Hfree).
Defined.

(** ** The listing on any table *)

Lemma listing_line_of_complete (pid : string) (info : record) :
  complete info = true -> exists line, listing_line pid info = Some line.
Proof.
  intros Hc. unfold listing_line. simpl map.
  destruct (complete_field info "name" Hc) as (name & ->); [simpl; tauto |].
  destruct (complete_field info "website status" Hc) as (website & ->); [simpl; tauto |].
  destruct (complete_field info "dashboard status" Hc) as (dashboard & ->); [simpl; tauto |].
  destruct (complete_field info "deployment platform" Hc) as (platform & ->); [simpl; tauto |].
  destruct (complete_field info "cost" Hc) as (cost & ->); [simpl; tauto |].
  eexists. reflexivity.
Qed.

Lemma listing_lines_of_complete (t : table) :
  Forall (fun item => complete (snd item) = true) t ->
  exists lines,
    all_some (map (fun item => listing_line (fst item) (snd item)) t) = Some lines
    /\ List.length lines = List.length t.
Proof.
  induction 1 as [| [pid info] t Hc _ (lines & Hlines & Hlen)].
  - now exists [].
  - destruct (listing_line_of_complete pid info Hc) as (line & Hline).
    exists (line :: lines). simpl in *. rewrite Hline, Hlines. now rewrite Hlen.
Qed.

Lemma summary_line_missing (pid : string) (info : record) (field : string) :
  first_missing info = Some field -> summary_line pid info = Raise (KeyError field).
Proof.
  unfold first_missing, summary_line, dict_getitem. simpl find.
  destruct (dict_get info "name"); [| now intros [= <-]].
  destruct (dict_get info "website status"); [| now intros [= <-]].
  destruct (dict_get info "dashboard status"); [| now intros [= <-]].
  destruct (dict_get info "deployment platform"); [| now intros [= <-]].
  destruct (dict_get info "cost"); [discriminate | now intros [= <-]].
Qed.

Lemma no_newline_append (a b : string) :
  no_newline (a ++ b) = no_newline a && no_newline b.
Proof.
  induction a as [| c a IH]; simpl; [reflexivity |].
  now rewrite IH, andb_assoc.
Qed.

Lemma split_on_one_line (s : string) :
  no_newline s = true -> split_on "010"%char s = [s].
Proof.
  induction s as [| c s IH]; simpl; [reflexivity |].
  rewrite andb_true_iff, negb_true_iff. intros [Hc Hs].
  now rewrite Hc, (IH Hs).
Qed.

Lemma split_on_first_line (a b : string) :
  no_newline a = true -> split_on "010"%char (a ++ nl ++ b) = a :: split_on "010"%char b.
Proof.
  induction a as [| c a IH]; simpl; [reflexivity |].
  rewrite andb_true_iff, negb_true_iff. intros [Hc Ha].
  rewrite Hc. change (String "010" b) with (nl ++ b). now rewrite (IH Ha).
Qed.

Lemma split_on_join (lines : list string) :
  lines <> [] ->
  Forall (fun line => no_newline line = true) lines ->
  split_on "010"%char (join nl lines) = lines.
Proof.
  unfold join. induction lines as [| a lines IH]; intros Hne Hall; [contradiction |].
  inversion Hall as [| ? ? Ha Hrest]; subst.
  destruct lines as [| b lines]; [now apply split_on_one_line |].
  change (String.concat nl (a :: b :: lines)) with (a ++ nl ++ String.concat nl (b :: lines)).
  rewrite (split_on_first_line _ _ Ha). f_equal. now apply IH.
Qed.

Lemma no_newline_value (info : record) (f v : string) :
  forallb (fun kv => no_newline (snd kv)) info = true ->
  dict_get info f = Some v -> no_newline v = true.
Proof.
  rewrite forallb_forall. intros Hall Hget.
  exact (Hall (f, v) (dict_get_In _ _ _ Hget)).
Qed.

Lemma listing_line_one_line (pid : string) (info : record) (line : string) :
  no_newline pid = true ->
  forallb (fun kv => no_newline (snd kv)) info = true ->
  listing_line pid info = Some line -> no_newline line = true.
Proof.
  intros Hpid Hinfo. unfold listing_line. simpl map.
  destruct (dict_get info "name") as [name |] eqn:H1; [| discriminate].
  destruct (dict_get info "website status") as [website |] eqn:H2; [| discriminate].
  destruct (dict_get info "dashboard status") as [dashboard |] eqn:H3; [| discriminate].
  destruct (dict_get info "deployment platform") as [platform |] eqn:H4; [| discriminate].
  destruct (dict_get info "cost") as [cost |] eqn:H5; [| discriminate].
  intros [= <-]. unfold join.
  repeat (progress (simpl; rewrite ?no_newline_append)).
  rewrite Hpid.
  rewrite (no_newline_value _ _ _ Hinfo H1), (no_newline_value _ _ _ Hinfo H2),
    (no_newline_value _ _ _ Hinfo H3), (no_newline_value _ _ _ Hinfo H4),
    (no_newline_value _ _ _ Hinfo H5).
  reflexivity.
Qed.

Lemma listing_lines_one_line (t : table) :
  forall lines,
    one_line_fields t = true ->
    all_some (map (fun item => listing_line (fst item) (snd item)) t) = Some lines ->
    Forall (fun line => no_newline line = true) lines.
Proof.
  induction t as [| [pid info] t IH]; intros lines Hone Hlines.
  - simpl in Hlines. injection Hlines as <-. constructor.
  - rewrite map_cons in Hlines.
    apply all_some_cons in Hlines as (line & rest & Hline & Hrest & ->).
    simpl in Hone. rewrite !andb_true_iff in Hone. destruct Hone as [[Hpid Hinfo] Ht].
    constructor; [exact (listing_line_one_line _ _ _ Hpid Hinfo Hline) | now apply IH].
Qed.

(** X3. Whatever the table, if every record has the five fields and no id
    or value holds a newline, the listing raises nothing and its text,
    split at the newlines, is exactly one line per record in table order;
    the empty table alone gives the empty text. *)
Theorem listing_of_any_table (st : table) :
  Forall (fun item => complete (snd item) = true) st ->
  one_line_fields st = true ->
  exists lines,
    list_projects st = (Ok (join nl lines), st)
    /\ all_some (map (fun item => listing_line (fst item) (snd item)) st) = Some lines
    /\ List.length lines = List.length st
    /\ (st <> [] -> split_on "010"%char (join nl lines) = lines)
    /\ (st = [] -> join nl lines = "").
Proof.
  intros Hc Hone. destruct (listing_lines_of_complete st Hc) as (lines & Hlines & Hlen).
  exists lines. split; [now apply list_projects_on |]. split; [exact Hlines |].
  split; [exact Hlen |]. split.
  - intros Hne. apply split_on_join; [| exact (listing_lines_one_line st lines Hone Hlines)].
    intros ->. destruct st; [now apply Hne | discriminate].
  - intros ->. destruct lines; [reflexivity | discriminate].
Qed.

(** X4. A record that lacks one of the five fields makes the whole listing
    fail: when the records before it are complete, the call raises KeyError
    for the first field the record lacks, in the order name, website status,
    dashboard status, deployment platform, cost, and returns no line at
    all, not even those of the complete records. *)
Theorem listing_fails_on_a_missing_field (before after : table) (pid : string)
        (info : record) (field : string) :
  Forall (fun item => complete (snd item) = true) before ->
  first_missing info = Some field ->
  list_projects (before ++ (pid, info) :: after)%list
  = (Raise (KeyError field), (before ++ (pid, info) :: after)%list).
Proof.
  intros Hc Hmiss. destruct (listing_lines_of_complete before Hc) as (lines & Hlines & _).
  set (st := (before ++ (pid, info) :: after)%list).
  unfold list_projects. rewrite (bind_returns read_PROJECTS _ st st st eq_refl).
  apply bind_raises. unfold dict_items, st.
  apply (for_each_raises _ before after (pid, info) [] ([] ++ lines)%list).
  - exact (list_loop before lines [] _ Hlines).
  - apply bind_raises. unfold lift. now rewrite (summary_line_missing _ _ _ Hmiss).
Qed.

(** X3 on a table of two records that is not the one of the source. *)
Lemma listing_of_any_table_witness :
  list_projects [("a", [("name", "A"); ("website status", "live"); ("dashboard status", "live");
                        ("deployment platform", "Vercel"); ("cost", "$0/mo")]);
                 ("b", [("cost", "$7/mo"); ("name", "B"); ("website status", "down");
                        ("dashboard status", "live"); ("deployment platform", "Fly")])]
  = (Ok ("• A (a) - live - live - Vercel - $0/mo" ++ nl ++ "• B (b) - down - live - Fly - $7/mo"),
     [("a", [("name", "A"); ("website status", "live"); ("dashboard status", "live");
             ("deployment platform", "Vercel"); ("cost", "$0/mo")]);
      ("b", [("cost", "$7/mo"); ("name", "B"); ("website status", "down");
             ("dashboard status", "live"); ("deployment platform", "Fly")])]).
Proof.
  destruct (listing_of_any_table
              [("a", [("name", "A"); ("website status", "live"); ("dashboard status", "live");
                      ("deployment platform", "Vercel"); ("cost", "$0/mo")]);
               ("b", [("cost", "$7/mo"); ("name", "B"); ("website status", "down");
                      ("dashboard status", "live"); ("deployment platform", "Fly")])])
    as (lines & Hrun & Hlines & _).
  - repeat constructor.
  - reflexivity.
  - injection Hlines as <-. exact Hrun.
Defined.

(** X4 on a table whose second record has no dashboard status. *)
Lemma listing_fails_on_a_missing_field_witness :
  list_projects [("a", [("name", "A"); ("website status", "live"); ("dashboard status", "live");
                        ("deployment platform", "Vercel"); ("cost", "$0/mo")]);
                 ("b", [("name", "B"); ("website status", "down")]);
                 ("c", [])]
  = (Raise (KeyError "dashboard status"),
     [("a", [("name", "A"); ("website status", "live"); ("dashboard status", "live");
             ("deployment platform", "Vercel"); ("cost", "$0/mo")]);
      ("b", [("name", "B"); ("website status", "down")]);
      ("c", [])]).
Proof.
  apply (listing_fails_on_a_missing_field
           [("a", [("name", "A"); ("website status", "live"); ("dashboard status", "live");
                   ("deployment platform", "Vercel"); ("cost", "$0/mo")])]
           [("c", [])] "b" [("name", "B"); ("website status", "down")] "dashboard status").
  - repeat constructor.
  - reflexivity.
Defined.

(** ** The search on any table *)

Section SearchOnAnyTable.
Context {U : Unicode}.

Lemma search_loop_unfiltered (t : table) :
  NoDup (dict_keys t) ->
  forall matches st,
    (forall k, In k (dict_keys t) -> ~ In k (dict_keys matches)) ->
    for_each (dict_items t) matches
             (fun '(pid, info) m => search_step None None pid info m) st
    = (Ok (matches ++ t)%list, st).
Proof.
  unfold dict_items.
  induction t as [| [pid info] t IH]; intros Hnd matches st Hfresh; simpl.
  - unfold ret. now rewrite app_nil_r.
  - simpl in Hnd. inversion Hnd as [| ? ? Hpid Hnd']; subst.
    assert (Hstep : search_step None None pid info matches st
                    = (Ok (matches ++ [(pid, info)])%list, st)).
    { unfold search_step, bind, lift, status_match, ret. simpl.
      rewrite dict_set_new; [reflexivity | apply Hfresh; now left]. }
    rewrite (bind_returns _ _ _ _ _ Hstep). rewrite IH; [| exact Hnd' |].
    + now rewrite <- app_assoc.
    + intros k Hk Hin. unfold dict_keys in Hin. rewrite map_app, in_app_iff in Hin.
      destruct Hin as [Hin | [<- | []]]; [| now apply Hpid].
      apply (Hfresh k); [now right | exact Hin].
Qed.

(** X5. Without filters the search reads no field of any record: on every
    table, complete or not, it returns the serialization of the whole
    table, the very text the resource returns and the monthly report
    embeds; only on the empty table does it answer with the no-matches
    message, which then shows None for both filters. *)
Theorem search_without_filters_returns_the_table (st : table) :
  NoDup (dict_keys st) ->
  search_by_status None None st
  = (Ok (match st with
         | [] => "No projects found with website_status='None', dashboard_status='None'"
         | _ :: _ => Json.dumps_table 2 st
         end), st)
  /\ (st <> [] -> search_by_status None None st = all_projects_resource st)
  /\ (forall text,
        all_projects_resource st = (Ok text, st) ->
        monthly_report st
        = (Ok ("You are the IT Department Manager at Jamiat. " ++ nl
                 ++ "Generate a professional monthly status report based on this project data:"
                 ++ nl ++ text ++ nl ++ nl
                 ++ "Include: Executive summary, per-project updates, hosting costs, and next month's priorities."
                 ++ nl ++ "Keep it concise and professional."), st)).
Proof.
  intros Hnd.
  assert (Hrun : search_by_status None None st
                 = (Ok (match st with
                        | [] => "No projects found with website_status='None', dashboard_status='None'"
                        | _ :: _ => Json.dumps_table 2 st
                        end), st)).
  { unfold search_by_status.
    rewrite (bind_returns read_PROJECTS _ st st st eq_refl).
    rewrite (bind_returns _ _ _ _ _ (search_loop_unfiltered st Hnd [] st (fun k _ H => H))).
    simpl app. now destruct st. }
  split; [exact Hrun |]. split.
  - intros Hne. rewrite Hrun. destruct st; [now destruct Hne | reflexivity].
  - intros text [= <-]. reflexivity.
Qed.

Lemma status_match_missing (info : record) (field w : string) :
  dict_get info field = None ->
  status_match info field (Some w) = Raise (KeyError field).
Proof. intros H. unfold status_match, dict_getitem. now rewrite H. Qed.






End SearchOnAnyTable.

(** X5 on a table whose only record has no status field at all. *)
Lemma search_without_filters_returns_the_table_witness :
  @search_by_status ascii_unicode None None [("x", [("name", "X")])]
  = (Ok (Json.dumps_table 2 [("x", [("name", "X")])]), [("x", [("name", "X")])]).
Proof.
  assert (Hnd : NoDup (dict_keys [("x", [("name", "X")])]))
    by (repeat constructor; simpl; tauto).
  exact (proj1 (@search_without_filters_returns_the_table ascii_unicode
                  [("x", [("name", "X")])] Hnd)).
Defined.



(** ** Cost strings and the total on any table *)

Lemma digit_is_not (old c : ascii) (d : Z) :
  digit_of old = None -> digit_of c = Some d -> old <> c.
Proof. intros Hold Hc ->. congruence. Qed.

(** Scanning for a pattern that starts with a character that is no digit
    copies a run of digits as it is. *)
Lemma replace_scan_past_digits (old : ascii) (old_rest new tail : string) (d : string) :
  digit_of old = None ->
  forall acc v,
    digits_from acc d = Some v ->
    replace_scan (String old old_rest) new (d ++ tail) 0
    = d ++ replace_scan (String old old_rest) new tail 0.
Proof.
  intros Hold. induction d as [| c d IH]; intros acc v Hv; [reflexivity |].
  simpl in Hv. destruct (digit_of c) as [dg |] eqn:Hc; [| discriminate].
  change ((String c d) ++ tail) with (String c (d ++ tail)).
  cbn [replace_scan String.prefix].
  destruct (ascii_dec old c) as [Heq | _]; [destruct (digit_is_not _ _ _ Hold Hc Heq) |].
  cbn [String.append]. f_equal. exact (IH _ _ Hv).
Qed.

Lemma strip_leading_dollar (s : string) :
  replace "$" "" (String "$" s) = replace_scan "$" "" s 0.
Proof.
  unfold replace. cbn [replace_scan].
  replace (String.prefix "$" (String "$" s)) with true by (simpl; now destruct s).
  reflexivity.
Qed.

Lemma strip_cost_digits (d : string) (v : Z) :
  digits_value d = Some v ->
  replace "/mo" "" (replace "$" "" ("$" ++ d ++ "/mo")) = d
  /\ replace "/mo" "" (replace "$" "" (d ++ "/mo")) = d
  /\ replace "/mo" "" (replace "$" "" ("$" ++ d)) = d
  /\ replace "/mo" "" (replace "$" "" d) = d.
Proof.
  intros Hv. assert (Hd : digits_from 0 d = Some v) by (destruct d; [discriminate | exact Hv]).
  assert (Hdollar : forall tail,
             replace_scan "$" "" (d ++ tail) 0 = d ++ replace_scan "$" "" tail 0)
    by (intros tail; exact (replace_scan_past_digits "$"%char "" "" tail d eq_refl _ _ Hd)).
  assert (Hmo : forall tail,
             replace_scan "/mo" "" (d ++ tail) 0 = d ++ replace_scan "/mo" "" tail 0)
    by (intros tail; exact (replace_scan_past_digits "/"%char "mo" "" tail d eq_refl _ _ Hd)).
  assert (H1 : replace "$" "" ("$" ++ d ++ "/mo") = d ++ "/mo").
  { change ("$" ++ d ++ "/mo") with (String "$" (d ++ "/mo")).
    rewrite strip_leading_dollar. now rewrite Hdollar. }
  assert (H2 : replace "$" "" (d ++ "/mo") = d ++ "/mo").
  { change (replace "$" "" (d ++ "/mo")) with (replace_scan "$" "" (d ++ "/mo") 0).
    now rewrite Hdollar. }
  assert (H3 : replace "$" "" ("$" ++ d) = d).
  { change ("$" ++ d) with (String "$" d). rewrite strip_leading_dollar.
    rewrite <- (append_empty_r d) at 1. rewrite Hdollar. apply append_empty_r. }
  assert (H4 : replace "$" "" d = d).
  { change (replace "$" "" d) with (replace_scan "$" "" d 0).
    rewrite <- (append_empty_r d) at 1. rewrite Hdollar. apply append_empty_r. }
  assert (H5 : replace "/mo" "" (d ++ "/mo") = d).
  { change (replace "/mo" "" (d ++ "/mo")) with (replace_scan "/mo" "" (d ++ "/mo") 0).
    rewrite Hmo. apply append_empty_r. }
  assert (H6 : replace "/mo" "" d = d).
  { change (replace "/mo" "" d) with (replace_scan "/mo" "" d 0).
    rewrite <- (append_empty_r d) at 1. rewrite Hmo. apply append_empty_r. }
  rewrite H1, H2, H3, H4, H5, H6. repeat split.
Qed.

Lemma all_literal_zero_sum (t : table) :
  forall ms, total_is_float t = false -> magnitudes t = Some ms -> sum_Z ms = 0%Z.
Proof.
  unfold magnitudes. induction t as [| [pid info] t IH]; intros ms Hf Hms.
  - simpl in Hms. now injection Hms as <-.
  - rewrite map_cons in Hms. apply all_some_cons in Hms as (m & rest & Hm & Hrest & ->).
    cbn [total_is_float existsb snd] in Hf. fold (total_is_float t) in Hf.
    apply orb_false_iff in Hf as [Hz Hf]. cbn [snd] in Hm. unfold record_magnitude in Hm.
    destruct (dict_get info "cost") as [cost |]; [| discriminate].
    apply negb_false_iff in Hz.
    rewrite sum_Z_cons, (magnitude_of_literal_zero cost m Hz Hm), (IH rest Hf Hrest).
    reflexivity.
Qed.

Section TotalOnAnyTable.
Context {F : Binary64}.

(** X8. A cost is read as the run of digits that is left once every "$"
    and every "/mo" is removed: for a run of digits d whose value binary64
    holds exactly, the strings "$d/mo", "d/mo", "$d" and "d" all give the
    same number, the int 0 when d is the single digit 0 and the float of
    d's value otherwise. Neither the currency symbol nor the period suffix
    is required. *)
Theorem cost_is_read_with_or_without_symbol_and_suffix (d : string) (v : Z) :
  digits_value d = Some v ->
  exact v ->
  parse_cost ("$" ++ d ++ "/mo") = Ok (if d =? "0" then PyInt 0 else PyFloat (fl v))
  /\ parse_cost (d ++ "/mo") = parse_cost ("$" ++ d ++ "/mo")
  /\ parse_cost ("$" ++ d) = parse_cost ("$" ++ d ++ "/mo")
  /\ parse_cost d = parse_cost ("$" ++ d ++ "/mo")
  /\ magnitude ("$" ++ d ++ "/mo") = Some v.
Proof.
  intros Hv He. destruct (strip_cost_digits d v Hv) as (H1 & H2 & H3 & H4).
  unfold parse_cost, magnitude. rewrite H1, H2, H3, H4.
  repeat split; try reflexivity; [| exact Hv].
  destruct (d =? "0"); [reflexivity |].
  unfold py_float. now rewrite (float_of_str_digits d v Hv He).
Qed.

(** X9. Whatever the table, if every record has a name and a cost whose
    magnitude is a natural number and the magnitudes sum to at most 2^53,
    the tool returns the header, one breakdown line per record in table
    order, an empty line and the total line. The total is the sum of the
    magnitudes, written as a float (with .0) as soon as one cost does not
    strip to the single digit 0, and as the int 0 otherwise, which
    includes the empty table. *)
Theorem total_of_any_table (st : table) (ms : list Z) (lines : list string) :
  magnitudes st = Some ms ->
  all_some (map (fun item => breakdown_line (snd item)) st) = Some lines ->
  Forall (fun m => 0 <= m)%Z ms ->
  (sum_Z ms <= 2 ^ 53)%Z ->
  get_total_cost st
  = (Ok ("Monthly Hosting Breakdown:" ++ nl ++ join nl lines ++ nl ++ nl
           ++ "Total: $"
           ++ (if total_is_float st then string_of_Z (sum_Z ms) ++ ".0" else "0")
           ++ "/mo"), st)
  /\ List.length lines = List.length st.
Proof.
  intros Hms Hlines Hpos Hbound. split.
  - rewrite (get_total_cost_on st ms lines Hms Hlines Hpos Hbound). unfold shown_total.
    destruct (total_is_float st) eqn:Hf; [reflexivity |].
    now rewrite (all_literal_zero_sum st ms Hf Hms).
  - clear -Hlines. revert lines Hlines.
    induction st as [| item st IH]; intros lines Hlines.
    + simpl in Hlines. now injection Hlines as <-.
    + rewrite map_cons in Hlines.
      apply all_some_cons in Hlines as (line & rest & _ & Hrest & ->).
      simpl. now rewrite (IH rest Hrest).
Qed.

(** X10. Replacing one record by another changes the reported total by
    exactly the difference of the two magnitudes: when both tables meet the
    conditions of X9, the two totals shown are the sums s and s + (m' - m),
    m and m' being the magnitudes of the record replaced and of its
    replacement. *)
Theorem total_moves_by_the_difference (before after : table) (pid : string)
        (info info' : record) (ms ms' : list Z) (lines lines' : list string) :
  magnitudes (before ++ (pid, info) :: after)%list = Some ms ->
  magnitudes (before ++ (pid, info') :: after)%list = Some ms' ->
  all_some (map (fun item => breakdown_line (snd item))
                (before ++ (pid, info) :: after)%list) = Some lines ->
  all_some (map (fun item => breakdown_line (snd item))
                (before ++ (pid, info') :: after)%list) = Some lines' ->
  Forall (fun m => 0 <= m)%Z ms ->
  Forall (fun m => 0 <= m)%Z ms' ->
  (sum_Z ms <= 2 ^ 53)%Z ->
  (sum_Z ms' <= 2 ^ 53)%Z ->
  exists m m',
    record_magnitude info = Some m
    /\ record_magnitude info' = Some m'
    /\ get_total_cost (before ++ (pid, info) :: after)%list
       = (Ok ("Monthly Hosting Breakdown:" ++ nl ++ join nl lines ++ nl ++ nl
                ++ "Total: $"
                ++ shown_total (before ++ (pid, info) :: after)%list (sum_Z ms)
                ++ "/mo"), (before ++ (pid, info) :: after)%list)
    /\ get_total_cost (before ++ (pid, info') :: after)%list
       = (Ok ("Monthly Hosting Breakdown:" ++ nl ++ join nl lines' ++ nl ++ nl
                ++ "Total: $"
                ++ shown_total (before ++ (pid, info') :: after)%list (sum_Z ms + (m' - m))
                ++ "/mo"), (before ++ (pid, info') :: after)%list).
Proof.
  intros Hms Hms' Hlines Hlines' Hpos Hpos' Hbound Hbound'.
  destruct (total_changes_by_the_delta before after pid info info' ms ms' Hms Hms')
    as (m & m' & Hm & Hm' & Hdelta).
  exists m, m'. split; [exact Hm |]. split; [exact Hm' |]. split.
  - exact (get_total_cost_on _ ms lines Hms Hlines Hpos Hbound).
  - replace (sum_Z ms + (m' - m))%Z with (sum_Z ms') by lia.
    exact (get_total_cost_on _ ms' lines' Hms' Hlines' Hpos' Hbound').
Qed.

Lemma total_loop_returns (t : table) (ms : list Z) (lines : list string) (st : table) :
  magnitudes t = Some ms ->
  all_some (map (fun item => breakdown_line (snd item)) t) = Some lines ->
  Forall (fun m => 0 <= m)%Z ms ->
  (sum_Z ms <= 2 ^ 53)%Z ->
  exists o,
    for_each (dict_items t) (PyInt 0, [])
             (fun '(pid, info) acc => total_cost_step pid info acc) st
    = (Ok (running_num o, lines), st)
    /\ running_value o = sum_Z ms.
Proof.
  intros Hms Hlines Hpos Hbound.
  destruct (total_loop t ms lines None [] st Hms Hlines Hpos) as (o & Hloop & Hval & _);
    [simpl; lia | simpl; lia |].
  exists o. split; [exact Hloop | exact Hval].
Qed.

(** X11. A cost that is no number stops the total: when the records before
    it meet the conditions of X9 and the cost of a record, its "$" and
    "/mo" removed, is not the single digit 0 and is rejected by float(),
    the call raises ValueError for the stripped string and reports neither
    a breakdown nor a total. *)
Theorem total_fails_on_a_cost_that_is_no_number (before after : table) (pid : string)
        (info : record) (cost : string) (ms : list Z) (lines : list string) :
  magnitudes before = Some ms ->
  all_some (map (fun item => breakdown_line (snd item)) before) = Some lines ->
  Forall (fun m => 0 <= m)%Z ms ->
  (sum_Z ms <= 2 ^ 53)%Z ->
  dict_get info "cost" = Some cost ->
  literal_zero cost = false ->
  float_of_str (replace "/mo" "" (replace "$" "" cost)) = None ->
  get_total_cost (before ++ (pid, info) :: after)%list
  = (Raise (ValueError (replace "/mo" "" (replace "$" "" cost))),
     (before ++ (pid, info) :: after)%list).
Proof.
  intros Hms Hlines Hpos Hbound Hcost Hz Hfloat.
  set (st := (before ++ (pid, info) :: after)%list).
  destruct (total_loop_returns before ms lines st Hms Hlines Hpos Hbound) as (o & Hloop & _).
  unfold get_total_cost. rewrite (bind_returns read_PROJECTS _ st st st eq_refl).
  apply bind_raises. unfold dict_items, st.
  apply (for_each_raises _ before after (pid, info) (PyInt 0, []) (running_num o, lines)).
  - exact Hloop.
  - unfold total_cost_step, dict_getitem. rewrite Hcost.
    rewrite (bind_returns (lift (Ok cost)) _ _ _ _ eq_refl).
    apply bind_raises. unfold lift, parse_cost, py_float.
    unfold literal_zero in Hz. now rewrite Hz, Hfloat.
Qed.

(** X12. A record without a cost, or with a cost and without a name, stops
    the total: when the records before it meet the conditions of X9, the
    call raises KeyError for "cost" in the first case; in the second, the
    cost being a magnitude that keeps the sum within 2^53, it raises
    KeyError for "name". No total is reported in either case. *)
Theorem total_fails_on_a_missing_cost_or_name (before after : table) (pid : string)
        (info : record) (ms : list Z) (lines : list string) :
  magnitudes before = Some ms ->
  all_some (map (fun item => breakdown_line (snd item)) before) = Some lines ->
  Forall (fun m => 0 <= m)%Z ms ->
  (sum_Z ms <= 2 ^ 53)%Z ->
  (dict_get info "cost" = None ->
   get_total_cost (before ++ (pid, info) :: after)%list
   = (Raise (KeyError "cost"), (before ++ (pid, info) :: after)%list))
  /\ (forall m,
        record_magnitude info = Some m -> (0 <= m)%Z -> (sum_Z ms + m <= 2 ^ 53)%Z ->
        dict_get info "name" = None ->
        get_total_cost (before ++ (pid, info) :: after)%list
        = (Raise (KeyError "name"), (before ++ (pid, info) :: after)%list)).
Proof.
  intros Hms Hlines Hpos Hbound.
  set (st := (before ++ (pid, info) :: after)%list).
  destruct (total_loop_returns before ms lines st Hms Hlines Hpos Hbound) as (o & Hloop & Hval).
  pose proof (sum_Z_nonneg ms Hpos) as Hsum.
  split.
  - intros Hcost. unfold get_total_cost.
    rewrite (bind_returns read_PROJECTS _ st st st eq_refl).
    apply bind_raises. unfold dict_items, st.
    apply (for_each_raises _ before after (pid, info) (PyInt 0, []) (running_num o, lines));
      [exact Hloop |].
    unfold total_cost_step, dict_getitem. rewrite Hcost. now apply bind_raises.
  - intros m Hm Hm0 Hbound' Hname. unfold get_total_cost.
    rewrite (bind_returns read_PROJECTS _ st st st eq_refl).
    apply bind_raises. unfold dict_items, st.
    apply (for_each_raises _ before after (pid, info) (PyInt 0, []) (running_num o, lines));
      [exact Hloop |].
    unfold record_magnitude in Hm.
    destruct (dict_get info "cost") as [cost |] eqn:Hcost; [| discriminate].
    assert (He : exact m) by (unfold exact; lia).
    unfold total_cost_step, dict_getitem. rewrite Hcost, Hname.
    rewrite (bind_lift_returns _ _ _ cost eq_refl).
    rewrite (bind_lift_returns _ _ _ _ (parse_cost_magnitude cost m Hm He)).
    assert (Hadd : py_add (running_num o)
                          (if literal_zero cost then PyInt 0 else PyFloat (fl m))
                   = Ok (running_num (if literal_zero cost then o
                                      else Some (running_value o + m)%Z)))
      by (apply py_add_running; [exact Hm | | exact He |]; unfold exact; lia).
    rewrite (bind_lift_returns _ _ _ _ Hadd).
    now apply bind_raises.
Qed.

End TotalOnAnyTable.

(** X8 at the cost string of the source's comment, "$25/mo". *)
Lemma cost_is_read_with_or_without_symbol_and_suffix_witness :
  @parse_cost integer_floats "$25/mo" = Ok (@PyFloat integer_floats 25%Z)
  /\ @parse_cost integer_floats "25" = @parse_cost integer_floats "$25/mo".
Proof.
  assert (He : exact 25) by (unfold exact; simpl; lia).
  destruct (@cost_is_read_with_or_without_symbol_and_suffix integer_floats "25" 25%Z eq_refl He)
    as (H1 & _ & _ & H4 & _).
  split; [exact H1 | exact H4].
Defined.

(** X9 on a table of a free project and one at 7 a month. *)
Lemma total_of_any_table_witness :
  @get_total_cost integer_floats
     [("a", [("name", "A"); ("cost", "$0/mo")]); ("b", [("name", "B"); ("cost", "$7/mo")])]
  = (Ok ("Monthly Hosting Breakdown:" ++ nl ++ "  A: $0/mo" ++ nl ++ "  B: $7/mo"
           ++ nl ++ nl ++ "Total: $7.0/mo"),
     [("a", [("name", "A"); ("cost", "$0/mo")]); ("b", [("name", "B"); ("cost", "$7/mo")])]).
Proof.
  assert (Hpos : Forall (fun m => 0 <= m)%Z [0; 7]%Z) by (repeat constructor; lia).
  assert (Hbound : (sum_Z [0; 7] <= 2 ^ 53)%Z) by (vm_compute; discriminate).
  exact (proj1 (@total_of_any_table integer_floats
                  [("a", [("name", "A"); ("cost", "$0/mo")]);
                   ("b", [("name", "B"); ("cost", "$7/mo")])]
                  [0; 7]%Z ["  A: $0/mo"; "  B: $7/mo"] eq_refl eq_refl Hpos Hbound)).
Defined.

(** X10 on a one-record table whose cost goes from 20 to 45 a month. *)
Lemma total_moves_by_the_difference_witness :
  @get_total_cost integer_floats [("a", [("name", "A"); ("cost", "$20/mo")])]
  = (Ok ("Monthly Hosting Breakdown:" ++ nl ++ "  A: $20/mo" ++ nl ++ nl ++ "Total: $20.0/mo"),
     [("a", [("name", "A"); ("cost", "$20/mo")])])
  /\ @get_total_cost integer_floats [("a", [("name", "A"); ("cost", "$45/mo")])]
     = (Ok ("Monthly Hosting Breakdown:" ++ nl ++ "  A: $45/mo" ++ nl ++ nl ++ "Total: $45.0/mo"),
        [("a", [("name", "A"); ("cost", "$45/mo")])]).
Proof.
  assert (Hpos : Forall (fun m => 0 <= m)%Z [20]%Z) by (repeat constructor; lia).
  assert (Hpos' : Forall (fun m => 0 <= m)%Z [45]%Z) by (repeat constructor; lia).
  assert (Hbound : (sum_Z [20] <= 2 ^ 53)%Z) by (vm_compute; discriminate).
  assert (Hbound' : (sum_Z [45] <= 2 ^ 53)%Z) by (vm_compute; discriminate).
  destruct (@total_moves_by_the_difference integer_floats [] [] "a"
              [("name", "A"); ("cost", "$20/mo")] [("name", "A"); ("cost", "$45/mo")]
              [20]%Z [45]%Z ["  A: $20/mo"] ["  A: $45/mo"]
              eq_refl eq_refl eq_refl eq_refl Hpos Hpos' Hbound Hbound')
    as (m & m' & Hm & Hm' & Hold & Hnew).
  injection Hm as <-. injection Hm' as <-.
  split; [exact Hold | exact Hnew].
Defined.

(** X11 on a table whose second record costs "free". *)
Lemma total_fails_on_a_cost_that_is_no_number_witness :
  @get_total_cost integer_floats
     [("a", [("name", "A"); ("cost", "$20/mo")]); ("b", [("name", "B"); ("cost", "free")])]
  = (Raise (ValueError "free"),
     [("a", [("name", "A"); ("cost", "$20/mo")]); ("b", [("name", "B"); ("cost", "free")])]).
Proof.
  assert (Hpos : Forall (fun m => 0 <= m)%Z [20]%Z) by (repeat constructor; lia).
  assert (Hbound : (sum_Z [20] <= 2 ^ 53)%Z) by (vm_compute; discriminate).
  exact (@total_fails_on_a_cost_that_is_no_number integer_floats
           [("a", [("name", "A"); ("cost", "$20/mo")])] [] "b"
           [("name", "B"); ("cost", "free")] "free" [20]%Z ["  A: $20/mo"]
           eq_refl eq_refl Hpos Hbound eq_refl eq_refl eq_refl).
Defined.

(** X12 on a table whose second record has no cost. *)
Lemma total_fails_on_a_missing_cost_or_name_witness :
  @get_total_cost integer_floats
     [("a", [("name", "A"); ("cost", "$20/mo")]); ("b", [("name", "B")])]
  = (Raise (KeyError "cost"),
     [("a", [("name", "A"); ("cost", "$20/mo")]); ("b", [("name", "B")])]).
Proof.
  assert (Hpos : Forall (fun m => 0 <= m)%Z [20]%Z) by (repeat constructor; lia).
  assert (Hbound : (sum_Z [20] <= 2 ^ 53)%Z) by (vm_compute; discriminate).
  exact (proj1 (@total_fails_on_a_missing_cost_or_name integer_floats
                  [("a", [("name", "A"); ("cost", "$20/mo")])] [] "b" [("name", "B")]
                  [20]%Z ["  A: $20/mo"] eq_refl eq_refl Hpos Hbound) eq_refl).
Defined.

(** X13. Whatever the table and the id, the lookup raises nothing, and its
    answer tells a hit from a miss by its first character: it is the JSON
    object of the record, which opens with a brace, exactly when the
    lower-cased id is a key bound to a non-empty record; in every other
    case it is the not-found text, which does not open with a brace. *)
Theorem lookup_answer_tells_hit_from_miss {U : Unicode} (st : table) (project_id : string) :
  exists text,
    get_project project_id st = (Ok text, st)
    /\ ((exists field project,
           dict_get st (lower project_id) = Some (field :: project)
           /\ text = Json.dumps_record 2 (field :: project)
           /\ String.prefix "{" text = true)
        \/ ((dict_get st (lower project_id) = None
             \/ dict_get st (lower project_id) = Some [])
            /\ text = "❌ Project '" ++ project_id ++ "' not found. Available: "
                        ++ repr_list (dict_keys st)
            /\ String.prefix "{" text = false)).
Proof.
  unfold get_project. rewrite (bind_returns read_PROJECTS _ st st st eq_refl).
  destruct (dict_get st (lower project_id)) as [[| field project] |] eqn:Hget.
  - eexists. split; [reflexivity |]. right. split; [now right |]. now split.
  - eexists. split; [reflexivity |]. left. exists field, project.
    split; [reflexivity |]. split; [reflexivity |].
    reflexivity.
  - eexists. split; [reflexivity |]. right. split; [now left |]. now split.
Qed.
